(** * now-cura builder: a shallow embedding of [index.ts] and [compile.ts]

    The development follows the two TypeScript sources of the builder:

    - [index.ts]: the readiness poller [checkForPort], the output validator
      [validateDistDir], the script resolver [getCommand], the dev route
      [getDevRoute] and the orchestrator [build] with its two process-wide
      registries [nowDevScriptPorts] and [nowDevChildProcesses];
    - [compile.ts]: the dependency tracer [compile] with its [readFile] hook
      and the two caches [sourceCache] and [fsCache].

    Everything the sources import from other packages (the [path] and [fs]
    modules, [@now/build-utils], [get-port], [is-port-reachable], [ms],
    [@zeit/node-file-trace]) is a field of the record [Host]: the builder is
    verified for every behaviour of its collaborators. *)

From stdpp Require Import base strings list gmap pretty.
From Stdlib Require Import ZArith Lia Ascii.
From Equations Require Import Equations.

Open Scope Z_scope.

(** ** JavaScript values, exceptions and effects *)

(** A thrown [Error]: Node's filesystem errors carry a [code]
    (["ENOENT"], ["EISDIR"], ...), errors made with [new Error(msg)] none. *)
Record JsError := mkError { code : option string; message : string }.

Definition newError (msg : string) : JsError := mkError None msg.
Definition fsError (c : string) : JsError := mkError (Some c) c.

Inductive Result (A : Type) : Type :=
| Ok (a : A)
| Throw (e : JsError).
Arguments Ok {A} a.
Arguments Throw {A} e.

(** Statements that read and write a state [S] and may throw.  The state
    survives a throw: what was mutated before the exception stays mutated. *)
Definition M (S A : Type) : Type := S -> Result A * S.

Definition ret {S A} (a : A) : M S A := fun s => (Ok a, s).
Definition throw {S A} (e : JsError) : M S A := fun s => (Throw e, s).
Definition lift {S A} (r : Result A) : M S A := fun s => (r, s).
Definition bind {S A B} (m : M S A) (k : A -> M S B) : M S B :=
  fun s => match m s with
           | (Ok a, s') => k a s'
           | (Throw e, s') => (Throw e, s')
           end.
Definition gets {S A} (f : S -> A) : M S A := fun s => (Ok (f s), s).
Definition modify {S} (f : S -> S) : M S unit := fun s => (Ok tt, f s).
Definition tryCatch {S A} (m : M S A) (h : JsError -> M S A) : M S A :=
  fun s => match m s with
           | (Ok a, s') => (Ok a, s')
           | (Throw e, s') => h e s'
           end.

Notation "'let*' x ':=' m 'in' k" := (bind m (fun x => k))
  (at level 10, x pattern, m at level 100, k at level 200).
Notation "m1 ';;' m2" := (bind m1 (fun _ => m2))
  (at level 100, m2 at level 200, right associativity).

(** The double quote, for the messages that quote a name. *)
Definition dquote : string := String (Ascii.ascii_of_nat 34) EmptyString.
Definition quoted (s : string) : string := dquote +:+ s +:+ dquote.

(** JavaScript truthiness of a [string | undefined]: only a present,
    non-empty string passes an [if]. *)
Definition truthy (o : option string) : bool :=
  match o with
  | Some (String _ _) => true
  | _ => false
  end.

(** ** Data model of [@now/build-utils] *)

Definition Buffer := list Byte.byte.

(** [string | Buffer], the type of a [FileBlob]'s data and of a cached source. *)
Inductive Source :=
| SrcString (s : string)
| SrcBuffer (b : Buffer).

Record FileBlob := mkFileBlob { data : Source; blobMode : option N }.
Record FileFsRef := mkFileFsRef { fsPath : string; refMode : option N }.

Inductive File :=
| Blob (b : FileBlob)
| FsRef (r : FileFsRef).

Record Lambda := mkLambda { zipBuffer : Buffer; handler : string; lambdaRuntime : string }.

(** The values of an output [Files] object: [build] stores the lambda next
    to the static files ([lambda as any]). *)
Inductive OutputEntry :=
| OutFile (f : File)
| OutLambda (l : Lambda).

(** [includeFiles?: string | string[]] *)
Inductive Patterns :=
| OnePattern (p : string)
| ManyPatterns (ps : list string).

Record Config := mkConfig {
  zeroConfig : bool;
  includeFiles : option Patterns;
  excludeFiles : option Patterns
}.

Record PackageJson := mkPackageJson { scripts : option (gmap string string) }.

Record Meta := mkMeta { isDev : bool }.

Record NodeVersion := mkNodeVersion { runtime : string }.

Record SpawnOptions := mkSpawnOptions {
  cwd : option string;
  stdio : option string;
  envPORT : option string
}.

Record Route := mkRoute {
  src : option string;
  dest : option string;
  headers : option (list (string * string));
  continue : option bool;
  handle : option string
}.

Record BuildOptions := mkBuildOptions {
  files : gmap string File;
  entrypoint : string;
  workPath : string;
  config : Config;
  meta : Meta
}.

Record LauncherOptions := mkLauncherOptions {
  entrypointPath : string;
  bridgePath : string;
  helpersPath : string;
  sourcemapSupportPath : string;
  shouldAddHelpers : bool
}.

Record Stats := mkStats { mode : N; isDirectory : bool }.

(** ** The module-graph walker as a strategy

    [nodeFileTrace] is a black box that sees the filesystem only through
    the [readFile] hook it is given.  A run is a finite tree: the walker
    either asks the hook for a path and continues with the answer, stops
    with its [fileList] and [warnings], or rejects. *)
Record Warning := mkWarning { stack : option string }.

Record TraceOptions := mkTraceOptions {
  base : string;
  mixedModules : bool;
  ignore : option Patterns
}.

Inductive Walk :=
| WalkDone (fileList : list string) (warnings : list Warning)
| WalkFail (e : JsError)
| WalkRead (p : string) (k : option string -> Walk).

(** ** The collaborators *)

Record Host := mkHost {
  (* path *)
  basename : string -> string;
  dirname : string -> string;
  join : list string -> string;
  resolve : string -> string -> string;
  relative : string -> string -> string;
  (* fs *)
  existsSync : string -> bool;
  statSync : string -> Result Stats;
  readdirSync : string -> Result (list string);
  readFileSync : string -> Result Buffer;
  lstatSync : string -> Result Stats;
  readPackageJson : string -> Result PackageJson;
  (* @now/build-utils *)
  download : gmap string File -> string -> Meta -> Result unit;
  getNodeVersion : string -> Config -> Result NodeVersion;
  getSpawnOptions : Meta -> NodeVersion -> SpawnOptions;
  runNpmInstall : string -> list string -> SpawnOptions -> Meta -> Result unit;
  runPackageJsonScript : string -> string -> SpawnOptions -> Result bool;
  glob : string -> string -> option string -> Result (list (string * FileFsRef));
  fromStream : FileFsRef -> Result Buffer;
  createLambda : gmap string File -> string -> string -> Result Lambda;
  (* get-port, is-port-reachable, ms, Buffer, launcher, node-file-trace *)
  getPort : Result N;
  isPortReachable : N -> nat -> bool;
  probeTime : nat -> N;
  sleepOvershoot : nat -> N;
  ms : Z -> string;
  bufferToString : Buffer -> string;
  makeNowLauncher : LauncherOptions -> string;
  nodeFileTrace : list string -> TraceOptions -> Walk;
  __dirname : string
}.

(** ** [getCommand] *)

(** [(pkg && pkg.scripts) || {}] *)
Definition scriptsOf (pkg : option PackageJson) : gmap string string :=
  match pkg with
  | Some p => match scripts p with Some s => s | None => ∅ end
  | None => ∅
  end.

Definition getCommand (pkg : option PackageJson) (cmd : string) (cfg : Config) : string :=
  let nowCmd := "now-" +:+ cmd in
  if negb (zeroConfig cfg) && String.eqb cmd "dev" then nowCmd
  else
    let scripts := scriptsOf pkg in
    if truthy (scripts !! nowCmd) then nowCmd
    else if truthy (scripts !! cmd) then cmd
    else if zeroConfig cfg then cmd else nowCmd.

(** The resolution rules as section 4.3 words them: a script counts as
    soon as the manifest declares its name. *)
Definition declares (pkg : option PackageJson) (name : string) : bool :=
  bool_decide (is_Some (scriptsOf pkg !! name)).


(** The same rules with "declares" read the way the code tests it: the
    script is present with a non-empty command. *)
Definition declaresCommand (pkg : option PackageJson) (name : string) : bool :=
  truthy (scriptsOf pkg !! name).


(** ** Strings the sources build *)

Definition newline : string := String (Ascii.ascii_of_nat 10) EmptyString.

(** [s.replace(/^\.\/?/, '')]: drop one leading dot and the slash after it. *)
Definition stripDotSlash (s : string) : string :=
  match s with
  | String "."%char (String "/"%char rest) => rest
  | String "."%char rest => rest
  | _ => s
  end.

(** A template literal prints a missing property as [undefined]. *)
Definition interpolate (o : option string) : string :=
  match o with
  | Some s => s
  | None => "undefined"
  end.

Definition DEV_SERVER_PORT_BIND_TIMEOUT : Z := 300000.

Definition LAUNCHER_FILENAME : string := "___now_launcher".
Definition BRIDGE_FILENAME : string := "___now_bridge".
Definition HELPERS_FILENAME : string := "___now_helpers".
Definition SOURCEMAP_SUPPORT_FILENAME : string := "__sourcemap_support".

(** ** [getDevRoute] *)

Definition getDevRoute (srcBase : string) (devPort : N) (route : Route) : Route :=
  let basic :=
    {| src := Some (srcBase +:+ interpolate (src route));
       dest := Some ("http://localhost:" +:+ pretty devPort +:+ interpolate (dest route));
       headers := None; continue := None; handle := None |} in
  match headers route with
  | Some h =>
      {| src := src basic; dest := dest basic; headers := Some h;
         continue := continue basic; handle := handle basic |}
  | None => basic
  end.

(** The five rules [build] pushes after a successful build script. *)
Definition staticRoutes : list Route :=
  [ {| src := Some "/static/(.*)"; dest := None;
       headers := Some [("cache-control", "s-maxage=31536000, immutable")];
       continue := Some true; handle := None |};
    {| src := Some "/service-worker.js"; dest := None;
       headers := Some [("cache-control", "s-maxage=0")];
       continue := Some true; handle := None |};
    {| src := Some "/sockjs-node/(.*)"; dest := Some "/sockjs-node/$1";
       headers := None; continue := None; handle := None |};
    {| src := None; dest := None; headers := None; continue := None;
       handle := Some "filesystem" |};
    {| src := Some "/(.*)"; dest := Some "/render.js";
       headers := None; continue := None; handle := None |} ].

(** ** Process-wide state of [index.ts] *)

(** [child.on('exit', () => nowDevScriptPorts.delete(entrypoint))]: the
    only listener the builder attaches; the closure captures [entrypoint]. *)
Inductive ExitHandler :=
| DeletePort (entry : string).

Record ChildProcess := mkChild {
  childId : nat;
  command : string;
  args : list string;
  options : SpawnOptions;
  exitHandlers : list ExitHandler
}.

(** What the builder does to the outside, in program order. *)
Inductive Event :=
| EvDownload (dir : string)
| EvNpmInstall (dir : string)
| EvGetPort (port : N)
| EvRegistrySet (entry : string) (port : N)
| EvSpawn (child : nat) (cmd : string) (argv : list string) (opts : SpawnOptions)
| EvOnExit (child : nat) (h : ExitHandler)
| EvChildAdd (child : nat)
| EvCheckForPort (port : N) (timeout : Z)
| EvRunScript (dir : string) (script : string)
| EvValidateDistDir (dir : string)
| EvGlob (pattern : string) (dir : string)
| EvCompile (dir : string) (entry : string)
| EvCreateLambda (fs : gmap string File) (h : string) (rt : string).

Record World := mkWorld {
  nowDevScriptPorts : gmap string N;
  nowDevChildProcesses : list ChildProcess;
  running : gset nat;
  clock : Z;
  events : list Event
}.

Definition initialWorld : World :=
  {| nowDevScriptPorts := ∅; nowDevChildProcesses := []; running := ∅;
     clock := 0; events := [] |}.

Definition logged (es : list Event) (w : World) : World :=
  {| nowDevScriptPorts := nowDevScriptPorts w;
     nowDevChildProcesses := nowDevChildProcesses w;
     running := running w; clock := clock w;
     events := events w ++ es |}.

Definition emit (e : Event) : M World unit := modify (logged [e]).

Definition setPorts (f : gmap string N -> gmap string N) : M World unit :=
  modify (fun w =>
    {| nowDevScriptPorts := f (nowDevScriptPorts w);
       nowDevChildProcesses := nowDevChildProcesses w;
       running := running w; clock := clock w; events := events w |}).

Definition setClock (t : Z) : M World unit :=
  modify (fun w =>
    {| nowDevScriptPorts := nowDevScriptPorts w;
       nowDevChildProcesses := nowDevChildProcesses w;
       running := running w; clock := t; events := events w |}).

(** The outcome of one run of the poller: its result, the clock when it
    returned or threw, and how many probes it made. *)
Record Polled := mkPolled { outcome : Result unit; finishedAt : Z; probes : nat }.

Record BuildResult := mkBuildResult {
  routes : list Route;
  watch : list string;
  output : gmap string OutputEntry;
  distPath : string
}.

(** ** State of one [compile] call *)

(** The filesystem calls [compile.ts] makes itself, in program order. *)
Inductive FsOp :=
| OpReadFile (p : string)
| OpLstat (p : string).

(** [sourceCache : Map<string, string | Buffer | null>]: a key is unset
    ([None]), holds [null] ([Some None]) or holds a source. *)
Record TraceState := mkTraceState {
  sourceCache : gmap string (option Source);
  fsCache : gmap string File;
  inputFiles : list string;
  fsLog : list FsOp
}.

Definition setSource (k : string) (v : option Source) : M TraceState unit :=
  modify (fun st =>
    {| sourceCache := <[k := v]> (sourceCache st); fsCache := fsCache st;
       inputFiles := inputFiles st; fsLog := fsLog st |}).

Definition setFs (k : string) (f : File) : M TraceState unit :=
  modify (fun st =>
    {| sourceCache := sourceCache st; fsCache := <[k := f]> (fsCache st);
       inputFiles := inputFiles st; fsLog := fsLog st |}).

(** [Set.prototype.add] on an insertion-ordered set. *)
Definition setAdd (x : string) (l : list string) : list string :=
  if decide (x ∈ l) then l else l ++ [x].

Definition addInput (p : string) : M TraceState unit :=
  modify (fun st =>
    {| sourceCache := sourceCache st; fsCache := fsCache st;
       inputFiles := setAdd p (inputFiles st); fsLog := fsLog st |}).

Definition logOp (o : FsOp) : M TraceState unit :=
  modify (fun st =>
    {| sourceCache := sourceCache st; fsCache := fsCache st;
       inputFiles := inputFiles st; fsLog := fsLog st ++ [o] |}).

Definition freshTrace (entrypointPath : string) : TraceState :=
  {| sourceCache := ∅; fsCache := ∅; inputFiles := [entrypointPath]; fsLog := [] |}.

(** [if (cached)] on a [string | Buffer]: a Buffer is an object and always
    passes, a string passes unless it is empty. *)
Definition truthySource (s : Source) : bool :=
  match s with
  | SrcString EmptyString => false
  | _ => true
  end.

(** [e.code === 'ENOENT' || e.code === 'EISDIR'] *)
Definition isNotFound (e : JsError) : bool :=
  match code e with
  | Some c => String.eqb c "ENOENT" || String.eqb c "EISDIR"
  | None => false
  end.

(** [config.includeFiles] as the list the [for] loop runs over: nothing
    when the property is missing or the empty string. *)
Definition patternList (p : option Patterns) : list string :=
  match p with
  | None => []
  | Some (OnePattern EmptyString) => []
  | Some (OnePattern s) => [s]
  | Some (ManyPatterns ps) => ps
  end.

Fixpoint forEach {S A} (l : list A) (f : A -> M S unit) : M S unit :=
  match l with
  | [] => ret tt
  | x :: l' => f x ;; forEach l' f
  end.

Fixpoint foldM {S A B} (f : B -> A -> M S B) (l : list A) (b : B) : M S B :=
  match l with
  | [] => ret b
  | x :: l' => let* b' := f b x in foldM f l' b'
  end.

(** The three messages of [validateDistDir]. *)
Definition notFoundMessage (name info : string) : string :=
  "No output directory named " +:+ quoted name +:+ " found." +:+ info.
Definition notADirectoryMessage (name info : string) : string :=
  "Build failed because distDir is not a directory: " +:+ quoted name +:+ "." +:+ info.
Definition emptyOutputMessage (name info : string) : string :=
  "Build failed because distDir is empty: " +:+ quoted name +:+ "." +:+ info.

Section Builder.

Variable host : Host.

(** ** [validateDistDir] *)

Definition distDirInfo (isDev : bool) (cfg : Config) : string :=
  let hash := if isDev then "#local-development"
              else "#configuring-the-build-output-directory" in
  let docsUrl :=
    "https://zeit.co/docs/v2/deployments/official-builders/static-build-now-static-build"
    +:+ hash in
  if zeroConfig cfg
  then newline +:+ "More details: https://zeit.co/docs/v2/platform/frequently-asked-questions#missing-public-directory"
  else newline +:+ "Make sure you configure the the correct distDir: " +:+ docsUrl.

Definition validateDistDir (distDir : string) (isDev : bool) (cfg : Config)
    : Result unit :=
  let distDirName := basename host distDir in
  let info := distDirInfo isDev cfg in
  if negb (existsSync host distDir) then
    Throw (newError (notFoundMessage distDirName info))
  else
    match statSync host distDir with
    | Throw e => Throw e
    | Ok st =>
        if negb (isDirectory st) then
          Throw (newError (notADirectoryMessage distDirName info))
        else
          match readdirSync host distDir with
          | Throw e => Throw e
          | Ok entries =>
              if Nat.eqb (length entries) 0 then
                Throw (newError (emptyOutputMessage distDirName info))
              else Ok tt
          end
    end.

(** ** [checkForPort]

    Time is the builder's clock [Date.now()].  Awaiting the [i]-th probe
    takes [probeTime host i] milliseconds and [sleep(100)] takes 100 plus
    [sleepOvershoot host i]: both are the environment's to choose. *)

Definition timeoutError (port : N) (timeout : Z) : JsError :=
  newError ("Detecting port " +:+ pretty port +:+ " timed out after "
            +:+ ms host timeout).

Equations? checkForPortLoop (port : N) (timeout start : Z) (i : nat) (now : Z)
    : Polled by wf (Z.to_nat (timeout + 1 - (now - start))) lt :=
  checkForPortLoop port timeout start i now :=
    let now1 := now + Z.of_N (probeTime host i) in
    if isPortReachable host port i then mkPolled (Ok tt) now1 (S i)
    else
      match Z_lt_dec timeout (now1 - start) with
      | left _ => mkPolled (Throw (timeoutError port timeout)) now1 (S i)
      | right _ =>
          checkForPortLoop port timeout start (S i)
            (now1 + 100 + Z.of_N (sleepOvershoot host i))
      end.
Proof. lia. Qed.

Definition checkForPort (port : N) (timeout : Z) (start : Z) : Polled :=
  checkForPortLoop port timeout start 0 start.

(** The clock when the [i]-th probe is started and when it answers, for
    as long as the loop keeps going. *)
Fixpoint probeStart (start : Z) (i : nat) : Z :=
  match i with
  | O => start
  | S j => probeStart start j + Z.of_N (probeTime host j) + 100
           + Z.of_N (sleepOvershoot host j)
  end.

Definition probeEnd (start : Z) (i : nat) : Z :=
  probeStart start i + Z.of_N (probeTime host i).


(** ** [compile]: the [readFile] hook *)

Definition sourceToString (s : Source) : string :=
  match s with
  | SrcString str => str
  | SrcBuffer b => bufferToString host b
  end.

(** The [try] block of the hook and its [catch]. *)
Definition readThrough (relPath fsPath : string) : M TraceState (option string) :=
  tryCatch
    (logOp (OpReadFile fsPath) ;;
     let* source := lift (readFileSync host fsPath) in
     logOp (OpLstat fsPath) ;;
     let* st := lift (lstatSync host fsPath) in
     let entry := Blob {| data := SrcBuffer source; blobMode := Some (mode st) |} in
     setFs relPath entry ;;
     setSource relPath (Some (SrcBuffer source)) ;;
     ret (Some (bufferToString host source)))
    (fun e =>
       if isNotFound e then setSource relPath None ;; ret None
       else throw e).

Definition readFile (workPath fsPath : string) : M TraceState (option string) :=
  let relPath := relative host workPath fsPath in
  let* cached := gets (fun st => sourceCache st !! relPath) in
  match cached with
  | Some (Some s) =>
      if truthySource s then ret (Some (sourceToString s))
      else readThrough relPath fsPath
  | Some None => ret None
  | None => readThrough relPath fsPath
  end.

(** ** [compile]: include patterns, walk, assembly *)

(** The body of the [Object.keys(files).map(async file => ...)] callback.
    The callbacks of one pattern run interleaved under [Promise.all]; they
    write distinct keys, so running them one after the other in key order
    reaches the same caches. *)
Definition includeFile (workPath : string) (kv : string * FileFsRef)
    : M TraceState unit :=
  let '(file, entry) := kv in
  setFs file (FsRef entry) ;;
  let* data := lift (fromStream host entry) in
  setSource file (Some (SrcBuffer data)) ;;
  addInput (resolve host workPath file).

Definition includePattern (workPath pattern : string) : M TraceState unit :=
  let* files := lift (glob host pattern workPath None) in
  forEach files (includeFile workPath).

Definition includeAll (workPath : string) (cfg : Config) : M TraceState unit :=
  forEach (patternList (includeFiles cfg)) (includePattern workPath).

Fixpoint runWalk (workPath : string) (w : Walk)
    : M TraceState (list string * list Warning) :=
  match w with
  | WalkDone fileList warnings => ret (fileList, warnings)
  | WalkFail e => throw e
  | WalkRead p k => let* r := readFile workPath p in runWalk workPath (k r)
  end.

(** One turn of [for (const path of fileList)]. *)
Definition prepareFile (workPath : string) (prepared : gmap string File)
    (path : string) : M TraceState (gmap string File) :=
  let* cached := gets (fun st => fsCache st !! path) in
  let* entry :=
    match cached with
    | Some e => ret e
    | None =>
        let fsPath := resolve host workPath path in
        logOp (OpLstat fsPath) ;;
        let* st := lift (lstatSync host fsPath) in
        logOp (OpReadFile fsPath) ;;
        let* source := lift (readFileSync host fsPath) in
        ret (Blob {| data := SrcBuffer source; blobMode := Some (mode st) |})
    end in
  ret (<[path := entry]> prepared).

Definition traceOptions (workPath : string) (cfg : Config) : TraceOptions :=
  {| base := workPath; mixedModules := true; ignore := excludeFiles cfg |}.

Definition compileM (workPath entrypointPath : string) (cfg : Config)
    : M TraceState (gmap string File * list string) :=
  includeAll workPath cfg ;;
  let* inputs := gets inputFiles in
  let* traced := runWalk workPath (nodeFileTrace host inputs (traceOptions workPath cfg)) in
  let* preparedFiles := foldM (prepareFile workPath) (fst traced) ∅ in
  ret (preparedFiles, fst traced).

Definition compile (workPath entrypointPath : string) (cfg : Config)
    : Result (gmap string File * list string) :=
  fst (compileM workPath entrypointPath cfg (freshTrace entrypointPath)).

(** ** [build]: the dev server of an entrypoint *)

(** [pkg.scripts && pkg.scripts.start] *)
Definition hasStart (pkg : PackageJson) : bool :=
  match scripts pkg with
  | Some s => truthy (s !! "start")
  | None => false
  end.

(** [spawn('yarn', ['start'], opts)]: a new child object, alive from now
    on.  Children are told apart by their rank of creation. *)
Definition spawn (cmd : string) (argv : list string) (opts : SpawnOptions)
    : M World ChildProcess :=
  fun w =>
    let id := length (nowDevChildProcesses w) in
    (Ok (mkChild id cmd argv opts []),
     {| nowDevScriptPorts := nowDevScriptPorts w;
        nowDevChildProcesses := nowDevChildProcesses w;
        running := {[id]} ∪ running w; clock := clock w;
        events := events w ++ [EvSpawn id cmd argv opts] |}).

(** [child.on('exit', h)] *)
Definition onExit (c : ChildProcess) (h : ExitHandler) : ChildProcess :=
  mkChild (childId c) (command c) (args c) (options c) (exitHandlers c ++ [h]).

(** [nowDevChildProcesses.add(child)] *)
Definition addChild (c : ChildProcess) : M World unit :=
  modify (fun w =>
    {| nowDevScriptPorts := nowDevScriptPorts w;
       nowDevChildProcesses := nowDevChildProcesses w ++ [c];
       running := running w; clock := clock w;
       events := events w ++ [EvChildAdd (childId c)] |}).

Definition detectError (devPort : N) : JsError :=
  newError ("Failed to detect a server running on port " +:+ pretty devPort
            +:+ "." +:+ newline
            +:+ "Details: https://err.sh/zeit/now/now-static-build-failed-to-detect-a-server").

(** [await checkForPort(devPort, DEV_SERVER_PORT_BIND_TIMEOUT)] inside its
    [try]/[catch]. *)
Definition awaitDevServer (devPort : N) : M World unit :=
  emit (EvCheckForPort devPort DEV_SERVER_PORT_BIND_TIMEOUT) ;;
  let* now := gets clock in
  let polled := checkForPort devPort DEV_SERVER_PORT_BIND_TIMEOUT now in
  setClock (finishedAt polled) ;;
  match outcome polled with
  | Ok _ => ret tt
  | Throw _ => throw (detectError devPort)
  end.

Definition devSpawnOptions (entrypointDir : string) (p : N) : SpawnOptions :=
  {| cwd := Some entrypointDir; stdio := Some "inherit";
     envPORT := Some (pretty p) |}.

(** Lines 169 to 201: reuse the registered port or start a server. *)
Definition devServerPort (entry entrypointDir : string) : M World N :=
  let* devPort := gets (fun w => nowDevScriptPorts w !! entry) in
  match devPort with
  | Some p => ret p
  | None =>
      let* p := lift (getPort host) in
      emit (EvGetPort p) ;;
      setPorts (insert entry p) ;;
      emit (EvRegistrySet entry p) ;;
      let opts := devSpawnOptions entrypointDir p in
      let* child := spawn "yarn" ["start"] opts in
      let child' := onExit child (DeletePort entry) in
      emit (EvOnExit (childId child) (DeletePort entry)) ;;
      addChild child' ;;
      awaitDevServer p ;;
      ret p
  end.

Definition devRoutes (mountpoint : string) (devPort : N) : list Route :=
  let srcBase := stripDotSlash mountpoint in
  let srcBase := match srcBase with
                 | EmptyString => srcBase
                 | _ => "/" +:+ srcBase
                 end in
  [ getDevRoute srcBase devPort
      {| src := Some "/(.*)"; dest := Some "/$1"; headers := None;
         continue := None; handle := None |} ].

(** ** [build]: the build script and the static output *)

Definition missingScriptError (buildScript entry : string) : JsError :=
  newError ("Missing required " +:+ quoted buildScript +:+ " script in "
            +:+ quoted entry).

(** [glob] answers with an object: its keys are distinct. *)
Definition filesOfGlob (l : list (string * FileFsRef)) : gmap string OutputEntry :=
  (fun r => OutFile (FsRef r)) <$> (list_to_map l : gmap string FileFsRef).

Definition runBuildScript (o : BuildOptions) (pkg : PackageJson)
    (mountpoint entrypointDir dist : string) (spawnOpts : SpawnOptions)
    : M World (list Route * gmap string OutputEntry) :=
  let buildScript := getCommand (Some pkg) "build" (config o) in
  emit (EvRunScript entrypointDir buildScript) ;;
  let* found := lift (runPackageJsonScript host entrypointDir buildScript spawnOpts) in
  if negb found then throw (missingScriptError buildScript (entrypoint o))
  else
    emit (EvValidateDistDir dist) ;;
    lift (validateDistDir dist (isDev (meta o)) (config o)) ;;
    emit (EvGlob "**" dist) ;;
    let* out := lift (glob host "**" dist (Some mountpoint)) in
    ret (staticRoutes, filesOfGlob out).

(** ** [build]: the lambda *)

Definition launcherFiles : gmap string File :=
  <[HELPERS_FILENAME +:+ ".js" :=
      FsRef {| fsPath := join host [__dirname host; "helpers.js"]; refMode := None |}]>
  (<[BRIDGE_FILENAME +:+ ".js" :=
      FsRef {| fsPath := join host [__dirname host; "bridge.js"]; refMode := None |}]>
  (<[LAUNCHER_FILENAME +:+ ".js" :=
      Blob {| data := SrcString (makeNowLauncher host
                {| entrypointPath := "./build/node/index.js";
                   bridgePath := "./" +:+ BRIDGE_FILENAME;
                   helpersPath := "./" +:+ HELPERS_FILENAME;
                   sourcemapSupportPath := "./" +:+ SOURCEMAP_SUPPORT_FILENAME;
                   shouldAddHelpers := true |});
              blobMode := None |}]> ∅)).

(** [{ ...preparedFiles, ...launcherFiles }]: a later spread overwrites. *)
Definition lambdaFiles (preparedFiles : gmap string File) : gmap string File :=
  launcherFiles ∪ preparedFiles.

Definition build (o : BuildOptions) : M World BuildResult :=
  emit (EvDownload (workPath o)) ;;
  lift (download host (files o) (workPath o) (meta o)) ;;
  let mountpoint := dirname host (entrypoint o) in
  let entrypointDir := join host [workPath o; mountpoint] in
  let buildPath := join host [workPath o; dirname host (entrypoint o); "build"] in
  let dist := join host [buildPath; "web"] in
  let renderPath := join host [buildPath; "node"; "index.js"] in
  let pkgPath := join host [workPath o; entrypoint o] in
  let* pkg := lift (readPackageJson host pkgPath) in
  let* nodeVersion := lift (getNodeVersion host entrypointDir (config o)) in
  let spawnOpts := getSpawnOptions host (meta o) nodeVersion in
  emit (EvNpmInstall entrypointDir) ;;
  lift (runNpmInstall host entrypointDir ["--prefer-offline"] spawnOpts (meta o)) ;;
  let* branch :=
    if isDev (meta o) && hasStart pkg then
      let* devPort := devServerPort (entrypoint o) entrypointDir in
      ret (devRoutes mountpoint devPort, ∅)
    else runBuildScript o pkg mountpoint entrypointDir dist spawnOpts in
  let rt := if isDev (meta o) then "nodejs" else runtime nodeVersion in
  emit (EvCompile (workPath o) renderPath) ;;
  let* traced := lift (compile (workPath o) renderPath (config o)) in
  let fs := lambdaFiles (fst traced) in
  emit (EvCreateLambda fs (LAUNCHER_FILENAME +:+ ".launcher") rt) ;;
  let* lambda := lift (createLambda host fs (LAUNCHER_FILENAME +:+ ".launcher") rt) in
  ret {| routes := fst branch;
         watch := snd traced ++ [join host [stripDotSlash mountpoint; "**/*"]];
         output := <["render.js" := OutLambda lambda]> (snd branch);
         distPath := dist |}.

End Builder.

(** ** The builder's process over time

    Builds and exits of dev servers alternate on the one JavaScript thread:
    an exit runs the child's listeners. *)






(** The entrypoint whose dev server a child is: the one its exit listener
    deletes from the registry. *)
Definition serves (c : ChildProcess) (entry : string) : Prop :=
  DeletePort entry ∈ exitHandlers c.

Definition liveServer (w : World) (c : ChildProcess) (entry : string) : Prop :=
  c ∈ nowDevChildProcesses w ∧ childId c ∈ running w ∧ serves c entry.

(** The world right after a dev server was started for [entry] on port
    [p], when the poller came back at time [t]. *)
Definition devChild (w : World) (entry entrypointDir : string) (p : N) : ChildProcess :=
  mkChild (length (nowDevChildProcesses w)) "yarn" ["start"]
    (devSpawnOptions entrypointDir p) [DeletePort entry].

Definition devStartEvents (w : World) (entry entrypointDir : string) (p : N)
    : list Event :=
  let id := length (nowDevChildProcesses w) in
  [ EvGetPort p; EvRegistrySet entry p;
    EvSpawn id "yarn" ["start"] (devSpawnOptions entrypointDir p);
    EvOnExit id (DeletePort entry); EvChildAdd id;
    EvCheckForPort p DEV_SERVER_PORT_BIND_TIMEOUT ].

Definition devStarted (entry entrypointDir : string) (p : N) (t : Z) (w : World)
    : World :=
  {| nowDevScriptPorts := <[entry := p]> (nowDevScriptPorts w);
     nowDevChildProcesses :=
       nowDevChildProcesses w ++ [devChild w entry entrypointDir p];
     running := {[length (nowDevChildProcesses w)]} ∪ running w;
     clock := t;
     events := events w ++ devStartEvents w entry entrypointDir p |}.

(** Two worlds with the same registry, the same children and the same
    live processes. *)
Definition sameProcesses (w w' : World) : Prop :=
  nowDevScriptPorts w' = nowDevScriptPorts w /\
  nowDevChildProcesses w' = nowDevChildProcesses w /\
  running w' = running w.


(** ** A sample host

    A small deterministic environment on which the builder can be run: an
    in-memory file tree, a manifest, a dev server that answers from a given
    probe on.  The worked examples below evaluate the builder on it. *)

Inductive Node :=
| NFile (content : Buffer) (perm : N)
| NDir (entries : list string).

Fixpoint lookupNode (tree : list (string * Node)) (p : string) : option Node :=
  match tree with
  | [] => None
  | (q, n) :: rest => if String.eqb p q then Some n else lookupNode rest p
  end.

(** The text after the last slash, and the text before it. *)
Definition hasSlash (s : string) : bool :=
  existsb (Ascii.eqb "/"%char) (String.list_ascii_of_string s).

Fixpoint lastSegment (s : string) : string :=
  match s with
  | EmptyString => EmptyString
  | String c rest =>
      if hasSlash rest then lastSegment rest
      else if Ascii.eqb c "/"%char then rest else s
  end.

Fixpoint parentOf (s : string) : option string :=
  match s with
  | EmptyString => None
  | String c rest =>
      match parentOf rest with
      | Some d => Some (String c d)
      | None => if Ascii.eqb c "/"%char then Some EmptyString else None
      end
  end.

Definition sampleDirname (s : string) : string :=
  match parentOf s with
  | Some EmptyString => "/"
  | Some d => d
  | None => "."
  end.

(** Joins the segments that are neither empty nor a single dot. *)
Definition keepSegment (x : string) : bool :=
  negb (String.eqb x EmptyString || String.eqb x ".").

Fixpoint joinSegments (l : list string) : string :=
  match l with
  | [] => "."
  | [x] => x
  | x :: rest => x +:+ "/" +:+ joinSegments rest
  end.

Definition sampleJoin (l : list string) : string :=
  joinSegments (List.filter keepSegment l).

Fixpoint dropPrefix (pre s : string) : option string :=
  match pre, s with
  | EmptyString, _ => Some s
  | String a pre', String b s' => if Ascii.eqb a b then dropPrefix pre' s' else None
  | _, _ => None
  end.

Definition sampleRelative (from to : string) : string :=
  match dropPrefix (from +:+ "/") to with
  | Some r => r
  | None => to
  end.

Definition sampleResolve (from to : string) : string := from +:+ "/" +:+ to.

(** A pattern is a path, a directory followed by [/**], or [**]. *)
Definition sampleMatch (pattern rel : string) : bool :=
  if String.eqb pattern "**" then true
  else match dropPrefix rel pattern with
       | Some EmptyString => true
       | _ => match parentOf pattern with
              | Some d => if String.eqb (lastSegment pattern) "**"
                          then match dropPrefix (d +:+ "/") rel with
                               | Some _ => true
                               | None => false
                               end
                          else false
              | None => false
              end
       end.

Definition matchesAny (ps : option Patterns) (rel : string) : bool :=
  existsb (fun p => sampleMatch p rel) (patternList ps).

Fixpoint sampleGlob (tree : list (string * Node)) (pattern dir : string)
    : list (string * FileFsRef) :=
  match tree with
  | [] => []
  | (p, NFile _ perm) :: rest =>
      match dropPrefix (dir +:+ "/") p with
      | Some rel =>
          if sampleMatch pattern rel
          then (rel, mkFileFsRef p (Some perm)) :: sampleGlob rest pattern dir
          else sampleGlob rest pattern dir
      | None => sampleGlob rest pattern dir
      end
  | _ :: rest => sampleGlob rest pattern dir
  end.

Definition sampleRead (tree : list (string * Node)) (p : string) : Result Buffer :=
  match lookupNode tree p with
  | Some (NFile content _) => Ok content
  | Some (NDir _) => Throw (fsError "EISDIR")
  | None => Throw (fsError "ENOENT")
  end.

Definition sampleStat (tree : list (string * Node)) (p : string) : Result Stats :=
  match lookupNode tree p with
  | Some (NFile _ perm) => Ok (mkStats perm false)
  | Some (NDir _) => Ok (mkStats 493 true)
  | None => Throw (fsError "ENOENT")
  end.

Definition sampleReaddir (tree : list (string * Node)) (p : string)
    : Result (list string) :=
  match lookupNode tree p with
  | Some (NDir entries) => Ok entries
  | Some (NFile _ _) => Throw (fsError "ENOTDIR")
  | None => Throw (fsError "ENOENT")
  end.

Definition asciiOfBuffer (b : Buffer) : string :=
  String.string_of_list_ascii (map Ascii.ascii_of_byte b).

Definition bufferOfAscii (s : string) : Buffer :=
  map Ascii.byte_of_ascii (String.list_ascii_of_string s).

(** Modelled from the spec: the walk of sections 4.5 and 6 without module
    resolution.  Every entry path is read through the hook; the paths that
    were found and that no ignore rule matches make up [fileList], and a
    path that was not found leaves a warning. *)
Fixpoint sampleWalk (workDir : string) (ignored : option Patterns)
    (entries done : list string) (ws : list Warning) : Walk :=
  match entries with
  | [] => WalkDone done ws
  | p :: rest =>
      let rel := sampleRelative workDir p in
      if matchesAny ignored rel then sampleWalk workDir ignored rest done ws
      else WalkRead p (fun r =>
             match r with
             | Some _ => sampleWalk workDir ignored rest (done ++ [rel]) ws
             | None => sampleWalk workDir ignored rest done
                         (ws ++ [mkWarning (Some ("Error: cannot find " +:+ rel))])
             end)
  end.

Definition sampleMs (t : Z) : string :=
  if Z.leb 60000 t then pretty (t `div` 60000) +:+ "m"
  else if Z.leb 1000 t then pretty (t `div` 1000) +:+ "s"
  else pretty t +:+ "ms".

Definition sampleHost (tree : list (string * Node)) (pkg : PackageJson)
    (reachable : nat -> bool) (probeMs : nat -> N) : Host :=
  {| basename := lastSegment;
     dirname := sampleDirname;
     join := sampleJoin;
     resolve := sampleResolve;
     relative := sampleRelative;
     existsSync := fun p => bool_decide (is_Some (lookupNode tree p));
     statSync := sampleStat tree;
     readdirSync := sampleReaddir tree;
     readFileSync := sampleRead tree;
     lstatSync := sampleStat tree;
     readPackageJson := fun _ => Ok pkg;
     download := fun _ _ _ => Ok tt;
     getNodeVersion := fun _ _ => Ok (mkNodeVersion "nodejs12.x");
     getSpawnOptions := fun _ _ => mkSpawnOptions None None None;
     runNpmInstall := fun _ _ _ _ => Ok tt;
     runPackageJsonScript := fun _ script _ =>
       Ok (truthy (scriptsOf (Some pkg) !! script));
     glob := fun pattern dir _ => Ok (sampleGlob tree pattern dir);
     fromStream := fun r => sampleRead tree (fsPath r);
     createLambda := fun _ h rt => Ok (mkLambda [] h rt);
     getPort := Ok 3000%N;
     isPortReachable := fun _ i => reachable i;
     probeTime := probeMs;
     sleepOvershoot := fun _ => 0%N;
     ms := sampleMs;
     bufferToString := asciiOfBuffer;
     makeNowLauncher := fun o => "require(" +:+ entrypointPath o +:+ ")";
     nodeFileTrace := fun entries opts =>
       sampleWalk (base opts) (ignore opts) entries [] [];
     __dirname := "/builder/dist" |}.

Definition sampleTree : list (string * Node) :=
  [ ("/work/package.json", NFile (bufferOfAscii "{}") 420%N);
    ("/work/build", NDir ["web"; "node"]);
    ("/work/build/web", NDir ["index.html"]);
    ("/work/build/web/index.html", NFile (bufferOfAscii "<html/>") 420%N);
    ("/work/build/node", NDir ["index.js"]);
    ("/work/build/node/index.js", NFile (bufferOfAscii "module.exports = 1") 420%N);
    ("/work/assets", NDir ["logo.png"]);
    ("/work/assets/logo.png", NFile (bufferOfAscii "PNG") 420%N) ].

Definition sampleOptions (dev : bool) (cfg : Config) : BuildOptions :=
  {| files := ∅; entrypoint := "package.json"; workPath := "/work";
     config := cfg; meta := mkMeta dev |}.

Definition plainConfig (zero : bool) : Config := mkConfig zero None None.

Definition manifest (l : list (string * string)) : PackageJson :=
  mkPackageJson (Some (list_to_map l)).

(** A string occurs inside another one. *)
Definition embeds (sub s : string) : Prop :=
  exists pre post, s = pre +:+ sub +:+ post.

(** * Properties *)

(** ** Running a statement to a result *)

Lemma bind_ok {S A B} (m : M S A) (k : A -> M S B) (s s' : S) (b : B) :
  bind m k s = (Ok b, s') ->
  exists a s1, m s = (Ok a, s1) /\ k a s1 = (Ok b, s').
Proof.
  unfold bind. destruct (m s) as [[a|e] s1]; [eauto | discriminate].
Qed.

Lemma lift_ok {S A} (r : Result A) (s s' : S) (a : A) :
  lift r s = (Ok a, s') -> r = Ok a /\ s' = s.
Proof. unfold lift. intros H. inversion H. auto. Qed.

Lemma ret_ok {S A} (x a : A) (s s' : S) :
  ret x s = (Ok a, s') -> a = x /\ s' = s.
Proof. unfold ret. intros H. inversion H. auto. Qed.

Lemma modify_ok {S} (f : S -> S) (s s' : S) (u : unit) :
  modify f s = (Ok u, s') -> s' = f s.
Proof. unfold modify. intros H. inversion H. auto. Qed.

Lemma gets_ok {S A} (f : S -> A) (s s' : S) (a : A) :
  gets f s = (Ok a, s') -> a = f s /\ s' = s.
Proof. unfold gets. intros H. inversion H. auto. Qed.

(** Splits a successful run along its binds. *)
Ltac monad_inv H :=
  lazymatch type of H with
  | bind _ _ _ = (Ok _, _) =>
      let a := fresh "a" in let s := fresh "s" in
      let H1 := fresh "Hrun" in let H2 := fresh "Hrun" in
      apply bind_ok in H; destruct H as (a & s & H1 & H2);
      monad_inv H1; monad_inv H2
  | lift _ _ = (Ok _, _) =>
      let E := fresh "Hres" in let E' := fresh "Hst" in
      apply lift_ok in H; destruct H as [E E']; try subst
  | ret _ _ = (Ok _, _) =>
      let E := fresh "Hval" in let E' := fresh "Hst" in
      apply ret_ok in H; destruct H as [E E']; try subst
  | modify _ _ = (Ok _, _) =>
      apply modify_ok in H; try subst
  | gets _ _ = (Ok _, _) =>
      let E := fresh "Hval" in let E' := fresh "Hst" in
      apply gets_ok in H; destruct H as [E E']; try subst
  | _ => idtac
  end.


(** ** The script resolver *)

Lemma truthy_Some_nonempty (o : option string) :
  truthy o = true <-> exists c s, o = Some (String c s).
Proof.
  split.
  - destruct o as [[|c s]|]; simpl; try discriminate. eauto.
  - intros (c & s & ->). reflexivity.
Qed.




(** ** The output validator *)

Section ValidatorProofs.

Variable host : Host.

Lemma append_assoc (a b c : string) : (a +:+ b) +:+ c = a +:+ (b +:+ c).
Proof.
  induction a as [|x a IH]; [reflexivity|].
  change (String x ((a +:+ b) +:+ c) = String x (a +:+ b +:+ c)).
  f_equal. exact IH.
Qed.

Lemma append_empty_r (s : string) : s +:+ EmptyString = s.
Proof.
  induction s as [|x s IH]; [reflexivity|].
  change (String x (s +:+ EmptyString) = String x s). f_equal. exact IH.
Qed.

Lemma embeds_middle (pre sub post : string) : embeds sub (pre +:+ sub +:+ post).
Proof. exists pre, post. reflexivity. Qed.

Lemma embeds_suffix (pre sub : string) : embeds sub (pre +:+ sub).
Proof.
  exists pre, EmptyString. now rewrite append_empty_r.
Qed.

(** The two hints differ, whatever the dev flag. *)
Lemma distDirInfo_distinguishes (d1 d2 : bool) (c1 c2 : Config) :
  zeroConfig c1 = true -> zeroConfig c2 = false ->
  distDirInfo d1 c1 <> distDirInfo d2 c2.
Proof.
  intros H1 H2. unfold distDirInfo. rewrite H1, H2. simpl. discriminate.
Qed.

(** C5: [validateDistDir] stops at the first failing check, in the order
    exists, is a directory, is not empty.  A missing path gives the
    not-found message whatever [statSync] and [readdirSync] would say; an
    existing non-directory gives the not-a-directory message; an existing
    empty directory gives the empty-output message, which is not the
    not-found one; each message quotes the base name of the directory and
    ends with the hint, and the hint of zero-config mode differs from the
    hint of a custom build; a non-empty directory passes. *)
Theorem validateDistDir_ordering (distDir : string) (isDev : bool) (cfg : Config) :
  let name := basename host distDir in
  let info := distDirInfo isDev cfg in
  (existsSync host distDir = false ->
     validateDistDir host distDir isDev cfg
       = Throw (newError (notFoundMessage name info))) /\
  (forall st, existsSync host distDir = true ->
     statSync host distDir = Ok st -> isDirectory st = false ->
     validateDistDir host distDir isDev cfg
       = Throw (newError (notADirectoryMessage name info))) /\
  (forall st, existsSync host distDir = true ->
     statSync host distDir = Ok st -> isDirectory st = true ->
     readdirSync host distDir = Ok [] ->
     validateDistDir host distDir isDev cfg
       = Throw (newError (emptyOutputMessage name info))) /\
  (forall st e es, existsSync host distDir = true ->
     statSync host distDir = Ok st -> isDirectory st = true ->
     readdirSync host distDir = Ok (e :: es) ->
     validateDistDir host distDir isDev cfg = Ok tt) /\
  (forall msg, In msg [notFoundMessage name info; notADirectoryMessage name info;
                       emptyOutputMessage name info] ->
     embeds (quoted name) msg /\ embeds info msg) /\
  emptyOutputMessage name info <> notFoundMessage name info /\
  notADirectoryMessage name info <> notFoundMessage name info /\
  (forall d c, zeroConfig c <> zeroConfig cfg -> distDirInfo d c <> info).
Proof.
  intros name info. unfold validateDistDir. fold name. fold info.
  split; [|split; [|split; [|split; [|split; [|split; [|split]]]]]].
  - intros ->. reflexivity.
  - intros st -> -> ->. reflexivity.
  - intros st -> -> -> ->. reflexivity.
  - intros st e es -> -> -> ->. reflexivity.
  - intros msg Hin. simpl in Hin.
    destruct Hin as [<- | [<- | [<- | []]]];
      unfold notFoundMessage, notADirectoryMessage, emptyOutputMessage; split.
    + apply embeds_middle.
    + rewrite <- !append_assoc. apply embeds_suffix.
    + apply embeds_middle.
    + rewrite <- !append_assoc. apply embeds_suffix.
    + apply embeds_middle.
    + rewrite <- !append_assoc. apply embeds_suffix.
  - unfold emptyOutputMessage, notFoundMessage. simpl. discriminate.
  - unfold notADirectoryMessage, notFoundMessage. simpl. discriminate.
  - intros d c Hne. unfold info.
    destruct (zeroConfig c) eqn:Hc, (zeroConfig cfg) eqn:Hcfg; try congruence.
    + now apply distDirInfo_distinguishes.
    + intros Heq. symmetry in Heq. revert Heq. now apply distDirInfo_distinguishes.
Qed.

End ValidatorProofs.

(** The scenario of section 8: [/work/build/web] exists and has no entry;
    validation fails with the empty-output message that quotes [web]. *)
Lemma validateDistDir_ordering_witness :
  let host := sampleHost [("/work/build/web", NDir [])] (manifest [])
                (fun _ => true) (fun _ => 0%N) in
  validateDistDir host "/work/build/web" false (plainConfig true)
    = Throw (newError (emptyOutputMessage "web" (distDirInfo false (plainConfig true)))).
Proof.
  intros host.
  destruct (validateDistDir_ordering host "/work/build/web" false (plainConfig true))
    as (_ & _ & Hempty & _).
  apply (Hempty (mkStats 493 true)); reflexivity.
Defined.

(** ** The readiness poller *)

Section PollerProofs.

Variable host : Host.
Variables (port : N) (timeout start : Z).

Lemma checkForPortLoop_step (i : nat) (now : Z) :
  checkForPortLoop host port timeout start i now =
  let now1 := now + Z.of_N (probeTime host i) in
  if isPortReachable host port i then mkPolled (Ok tt) now1 (S i)
  else if Z_lt_dec timeout (now1 - start)
       then mkPolled (Throw (timeoutError host port timeout)) now1 (S i)
       else checkForPortLoop host port timeout start (S i)
              (now1 + 100 + Z.of_N (sleepOvershoot host i)).
Proof.
  rewrite checkForPortLoop_equation_1. cbv zeta.
  destruct (isPortReachable host port i); [reflexivity|].
  destruct (Z_lt_dec timeout _); reflexivity.
Qed.

(** The loop leaves probe [i] when the port answers or the deadline has
    passed. *)
Definition stopsAt (i : nat) : Prop :=
  isPortReachable host port i = true \/ timeout < probeEnd host start i - start.

Lemma stopsAt_dec (i : nat) : {stopsAt i} + {~ stopsAt i}.
Proof.
  unfold stopsAt. destruct (isPortReachable host port i).
  - left. now left.
  - destruct (Z_lt_dec timeout (probeEnd host start i - start)).
    + left. now right.
    + right. intros [H | H]; [discriminate | contradiction].
Qed.

Lemma probeStart_lower (i : nat) : start + 100 * Z.of_nat i <= probeStart host start i.
Proof. induction i as [|i IH]; simpl probeStart; lia. Qed.

Lemma probeEnd_lower (i : nat) : start + 100 * Z.of_nat i <= probeEnd host start i.
Proof. unfold probeEnd. pose proof (probeStart_lower i). lia. Qed.

Lemma stopsAt_eventually : stopsAt (Z.to_nat (timeout / 100) + 1).
Proof.
  right. pose proof (probeEnd_lower (Z.to_nat (timeout / 100) + 1)) as H.
  destruct (Z_lt_dec timeout 0) as [Hneg | Hpos]; [lia|].
  rewrite Nat2Z.inj_add, Z2Nat.id in H by (apply Z.div_pos; lia).
  pose proof (Z.mul_succ_div_gt timeout 100 ltac:(lia)). lia.
Qed.

Lemma least_stop_below (b : nat) :
  (forall j, (j < b)%nat -> ~ stopsAt j) \/
  (exists n, (n < b)%nat /\ stopsAt n /\ forall j, (j < n)%nat -> ~ stopsAt j).
Proof.
  induction b as [|b [Hnone | (n & Hlt & Hn & Hmin)]].
  - left. intros j Hj. lia.
  - destruct (stopsAt_dec b) as [Hb | Hb].
    + right. exists b. repeat split; [lia | assumption | assumption].
    + left. intros j Hj. destruct (Nat.eq_dec j b) as [-> | Hne];
        [assumption | apply Hnone; lia].
  - right. exists n. repeat split; [lia | assumption | assumption].
Qed.

Lemma first_stop :
  exists n, stopsAt n /\ forall j, (j < n)%nat -> ~ stopsAt j.
Proof.
  destruct (least_stop_below (S (Z.to_nat (timeout / 100) + 1)))
    as [Hnone | (n & _ & Hn & Hmin)].
  - exfalso. apply (Hnone (Z.to_nat (timeout / 100) + 1)%nat); [lia|].
    apply stopsAt_eventually.
  - exists n. split; assumption.
Qed.

Lemma not_stopsAt (j : nat) :
  ~ stopsAt j ->
  isPortReachable host port j = false /\ probeEnd host start j - start <= timeout.
Proof.
  unfold stopsAt. intros H. split.
  - destruct (isPortReachable host port j); [exfalso; auto | reflexivity].
  - destruct (Z_lt_dec timeout (probeEnd host start j - start)); [exfalso; auto | lia].
Qed.

(** While no probe stops the loop, the loop moves on to the next probe. *)
Lemma checkForPortLoop_skip (k : nat) :
  (forall j, (j < k)%nat -> ~ stopsAt j) ->
  checkForPort host port timeout start
  = checkForPortLoop host port timeout start k (probeStart host start k).
Proof.
  induction k as [|k IH]; intros Hmin.
  - reflexivity.
  - rewrite IH by (intros j Hj; apply Hmin; lia).
    rewrite checkForPortLoop_step. cbv zeta.
    destruct (not_stopsAt k (Hmin k ltac:(lia))) as [Hr Ht].
    rewrite Hr. unfold probeEnd in Ht.
    destruct (Z_lt_dec timeout _) as [Hlt | _]; [lia|].
    reflexivity.
Qed.

(** The poller returns at the first probe that answers or finds the
    deadline passed. *)
Lemma checkForPort_first_stop :
  exists n,
    (forall j, (j < n)%nat ->
       isPortReachable host port j = false /\ probeEnd host start j - start <= timeout) /\
    ((isPortReachable host port n = true /\
      checkForPort host port timeout start = mkPolled (Ok tt) (probeEnd host start n) (S n))
     \/
     (isPortReachable host port n = false /\ timeout < probeEnd host start n - start /\
      checkForPort host port timeout start
      = mkPolled (Throw (timeoutError host port timeout)) (probeEnd host start n) (S n))).
Proof.
  destruct first_stop as (n & Hn & Hmin). exists n. split.
  - intros j Hj. apply not_stopsAt, Hmin, Hj.
  - rewrite (checkForPortLoop_skip n Hmin), checkForPortLoop_step. cbv zeta.
    fold (probeEnd host start n).
    destruct (isPortReachable host port n) eqn:Hr.
    + left. split; reflexivity.
    + right. destruct Hn as [Hn | Hn]; [congruence|].
      destruct (Z_lt_dec timeout _) as [_ | Hge]; [|lia].
      repeat split; assumption || reflexivity.
Qed.

(** C6: [checkForPort] is total.  It returns at some probe [n]: every
    earlier probe found the port closed before the deadline and was
    followed by one sleep of 100 ms (plus the timer's overshoot); if probe
    [n] finds the port open the result is success, with no further sleep
    or probe; otherwise the result is the timeout error, whose message
    names the port and the duration.  On a port that never opens the
    result is that error.  The error is never raised before more than
    [timeout] has elapsed since the start, and it is raised at the first
    check after the deadline: one sleep and one probe after a check that
    was still in time, hence at most 100 ms after the deadline when
    probes and timers take no extra time. *)
Theorem checkForPort_deadline :
  let r := checkForPort host port timeout start in
  exists n,
    probes r = S n /\ finishedAt r = probeEnd host start n /\
    (forall j, (j < n)%nat ->
       isPortReachable host port j = false /\
       probeEnd host start j - start <= timeout /\
       probeStart host start (S j) - probeEnd host start j
         = 100 + Z.of_N (sleepOvershoot host j)) /\
    (isPortReachable host port n = true -> outcome r = Ok tt) /\
    (isPortReachable host port n = false ->
       outcome r = Throw (timeoutError host port timeout)) /\
    ((forall i, isPortReachable host port i = false) ->
       outcome r = Throw (timeoutError host port timeout)) /\
    (forall e, outcome r = Throw e ->
       timeout < finishedAt r - start /\
       message e = "Detecting port " +:+ pretty port +:+ " timed out after "
                   +:+ ms host timeout) /\
    (forall e, outcome r = Throw e -> (0 < n)%nat ->
       finishedAt r - start
       <= timeout + 100 + Z.of_N (sleepOvershoot host (n - 1))
          + Z.of_N (probeTime host n)) /\
    ((forall i, probeTime host i = 0%N /\ sleepOvershoot host i = 0%N) ->
     0 <= timeout ->
     forall e, outcome r = Throw e -> finishedAt r - start <= timeout + 100).
Proof.
  intros r. destruct checkForPort_first_stop as (n & Hbefore & Hstop).
  exists n.
  assert (Hsleep : forall j, probeStart host start (S j) - probeEnd host start j
                             = 100 + Z.of_N (sleepOvershoot host j))
    by (intros j; unfold probeEnd; simpl probeStart; lia).
  assert (Hprev : (0 < n)%nat ->
            probeEnd host start n
            <= timeout + start + 100 + Z.of_N (sleepOvershoot host (n - 1))
               + Z.of_N (probeTime host n)).
  { intros Hpos. destruct n as [|m]; [lia|].
    destruct (Hbefore m ltac:(lia)) as [_ Hm].
    replace (S m - 1)%nat with m by lia.
    specialize (Hsleep m). unfold probeEnd in *. lia. }
  destruct Hstop as [[Hr Heq] | (Hr & Hlate & Heq)]; subst r; rewrite Heq; simpl.
  - repeat split; try reflexivity.
    + apply Hbefore; assumption.
    + apply Hbefore; assumption.
    + apply Hsleep.
    + congruence.
    + intros Hnever. rewrite Hnever in Hr. discriminate.
    + discriminate.
    + discriminate.
    + discriminate.
    + discriminate.
  - repeat split; try reflexivity.
    + apply Hbefore; assumption.
    + apply Hbefore; assumption.
    + apply Hsleep.
    + congruence.
    + assumption.
    + injection H as <-. reflexivity.
    + intros e _ Hpos. specialize (Hprev Hpos). lia.
    + intros Hideal Hnonneg e _.
      destruct n as [|m].
      * unfold probeEnd in Hlate. simpl probeStart in Hlate.
        destruct (Hideal O) as [Hp _]. rewrite Hp in Hlate. lia.
      * specialize (Hprev ltac:(lia)). replace (S m - 1)%nat with m in Hprev by lia.
        destruct (Hideal m) as [_ Hs]. destruct (Hideal (S m)) as [Hp _].
        rewrite Hs, Hp in Hprev. lia.
Qed.

End PollerProofs.

(** A dev server that never listens, probes and timers that take no extra
    time, a deadline of 250 ms: the poller probes four times and fails
    300 ms after its start. *)
Lemma checkForPort_deadline_witness :
  let host := sampleHost [] (manifest []) (fun _ => false) (fun _ => 0%N) in
  let r := checkForPort host 3000 250 0 in
  outcome r = Throw (timeoutError host 3000 250) /\
  250 < finishedAt r - 0 <= 250 + 100.
Proof.
  intros host r.
  destruct (checkForPort_deadline host 3000 250 0)
    as (n & _ & _ & _ & _ & _ & Hnever & Hlate & _ & Hideal).
  fold r in Hnever, Hlate, Hideal.
  assert (Hr : outcome r = Throw (timeoutError host 3000 250))
    by (apply Hnever; reflexivity).
  split; [exact Hr|]. split.
  - apply (Hlate _ Hr).
  - apply (Hideal (fun _ => conj eq_refl eq_refl) ltac:(lia) _ Hr).
Defined.

(** ** The tracer's read hook *)

(** Every source the tracer caches is a Buffer. *)
Definition buffersOnly (sc : gmap string (option Source)) : Prop :=
  forall k s, sc !! k = Some (Some s) -> exists b, s = SrcBuffer b.

Section HookProofs.

Variable host : Host.
Variable workPath : string.

Ltac run_hook :=
  unfold readFile, readThrough, bind, gets, tryCatch, lift, logOp, setFs,
    setSource, modify, ret, throw; simpl.

Lemma readFile_cached (fsPath : string) (st : TraceState) (b : Buffer) :
  sourceCache st !! relative host workPath fsPath = Some (Some (SrcBuffer b)) ->
  readFile host workPath fsPath st = (Ok (Some (bufferToString host b)), st).
Proof. intros H. run_hook. rewrite H. reflexivity. Qed.

Lemma readFile_absent (fsPath : string) (st : TraceState) :
  sourceCache st !! relative host workPath fsPath = Some None ->
  readFile host workPath fsPath st = (Ok None, st).
Proof. intros H. run_hook. rewrite H. reflexivity. Qed.

(** A hook call leaves every other key of the source cache alone, keeps a
    confirmed-absent key confirmed-absent and a cached Buffer cached. *)
Lemma readFile_keeps (fsPath : string) (st : TraceState) (k : string)
    (v : option Source) :
  sourceCache st !! k = Some v ->
  (v = None \/ exists b, v = Some (SrcBuffer b)) ->
  sourceCache (snd (readFile host workPath fsPath st)) !! k = Some v.
Proof.
  intros Hk Hv. run_hook.
  destruct (decide (relative host workPath fsPath = k)) as [-> | Hne].
  - rewrite Hk. destruct Hv as [-> | [b ->]]; simpl; assumption.
  - destruct (sourceCache st !! relative host workPath fsPath) as [[s|]|] eqn:Hc;
      simpl; try assumption;
      [destruct (truthySource s); simpl; [assumption|] | ];
      (destruct (readFileSync host fsPath) as [source|e]; simpl;
       [ destruct (lstatSync host fsPath) as [stats|e]; simpl;
         [ rewrite lookup_insert_ne by assumption; assumption | ]
       | ];
       destruct (isNotFound e); simpl;
       [ rewrite lookup_insert_ne by assumption; assumption | assumption
       | rewrite lookup_insert_ne by assumption; assumption | assumption ]).
Qed.

Lemma readFile_buffersOnly (fsPath : string) (st : TraceState) :
  buffersOnly (sourceCache st) ->
  buffersOnly (sourceCache (snd (readFile host workPath fsPath st))).
Proof.
  intros Hwf. run_hook.
  destruct (sourceCache st !! relative host workPath fsPath) as [[s|]|] eqn:Hc;
    simpl; try assumption;
    [destruct (truthySource s); simpl; [assumption|] | ];
    (destruct (readFileSync host fsPath) as [source|e]; simpl;
     [ destruct (lstatSync host fsPath) as [stats|e]; simpl | ];
     [ | destruct (isNotFound e); simpl; [|assumption]
       | destruct (isNotFound e); simpl; [|assumption] ];
     intros k s' Hk;
     (destruct (decide (relative host workPath fsPath = k)) as [Heq | Hne];
      [ rewrite Heq, lookup_insert_eq in Hk; inversion Hk; eauto
      | rewrite lookup_insert_ne in Hk by assumption; eauto ])).
Qed.

(** What a run of the walker leaves in place. *)
Lemma runWalk_keeps (w : Walk) (st : TraceState) (k : string) (v : option Source) :
  sourceCache st !! k = Some v ->
  (v = None \/ exists b, v = Some (SrcBuffer b)) ->
  sourceCache (snd (runWalk host workPath w st)) !! k = Some v.
Proof.
  revert st. induction w as [fl ws | e | p kont IH]; intros st Hk Hv; simpl.
  - assumption.
  - assumption.
  - unfold bind.
    pose proof (readFile_keeps p st k v Hk Hv) as Hkeep.
    destruct (readFile host workPath p st) as [[r|e] st1]; simpl in *.
    + apply IH; assumption.
    + assumption.
Qed.

Lemma readFile_not_found_recorded (fsPath : string) (st st1 : TraceState) :
  readFile host workPath fsPath st = (Ok None, st1) ->
  sourceCache st1 !! relative host workPath fsPath = Some None.
Proof.
  run_hook.
  destruct (sourceCache st !! relative host workPath fsPath) as [[s|]|] eqn:Hc; simpl.
  - destruct (truthySource s); simpl; [discriminate|].
    destruct (readFileSync host fsPath) as [source|e]; simpl;
      [ destruct (lstatSync host fsPath) as [stats|e]; simpl; [discriminate|] | ];
      (destruct (isNotFound e); simpl; [|discriminate];
       intros H; inversion H; simpl; apply lookup_insert_eq).
  - intros H; inversion H; subst. assumption.
  - destruct (readFileSync host fsPath) as [source|e]; simpl;
      [ destruct (lstatSync host fsPath) as [stats|e]; simpl; [discriminate|] | ];
      (destruct (isNotFound e); simpl; [|discriminate];
       intros H; inversion H; simpl; apply lookup_insert_eq).
Qed.

(** C1: the [readFile] hook is a lookup with three states.  A path whose
    Buffer is in the source cache is answered from the cache; a path
    recorded as [null] is answered [null]; in both cases the state, and
    with it the log of filesystem calls, is unchanged.  An unset path is
    read: on success both caches are filled and the content is returned;
    when [readFileSync] or [lstatSync] throws [ENOENT] or [EISDIR] the
    path is recorded as [null] and [null] is returned; any other error is
    thrown again and no cache changes.  Once the hook has answered [null]
    for a path, whatever the walker reads afterwards, asking for that path
    again answers [null] and leaves the state as it is.  The caches the
    tracer builds hold Buffers only, so the three states are all there
    is. *)
Theorem readFile_three_states (fsPath : string) (st : TraceState) :
  let relPath := relative host workPath fsPath in
  let withLog (ops : list FsOp) (sc : gmap string (option Source))
        (fc : gmap string File) :=
    {| sourceCache := sc; fsCache := fc; inputFiles := inputFiles st;
       fsLog := fsLog st ++ ops |} in
  (forall b, sourceCache st !! relPath = Some (Some (SrcBuffer b)) ->
     readFile host workPath fsPath st = (Ok (Some (bufferToString host b)), st)) /\
  (sourceCache st !! relPath = Some None ->
     readFile host workPath fsPath st = (Ok None, st)) /\
  (sourceCache st !! relPath = None ->
     (forall source stats,
        readFileSync host fsPath = Ok source -> lstatSync host fsPath = Ok stats ->
        readFile host workPath fsPath st
        = (Ok (Some (bufferToString host source)),
           withLog [OpReadFile fsPath; OpLstat fsPath]
             (<[relPath := Some (SrcBuffer source)]> (sourceCache st))
             (<[relPath := Blob {| data := SrcBuffer source;
                                   blobMode := Some (mode stats) |}]> (fsCache st)))) /\
     (forall e, readFileSync host fsPath = Throw e ->
        readFile host workPath fsPath st
        = if isNotFound e
          then (Ok None, withLog [OpReadFile fsPath]
                           (<[relPath := None]> (sourceCache st)) (fsCache st))
          else (Throw e, withLog [OpReadFile fsPath] (sourceCache st) (fsCache st))) /\
     (forall source e,
        readFileSync host fsPath = Ok source -> lstatSync host fsPath = Throw e ->
        readFile host workPath fsPath st
        = if isNotFound e
          then (Ok None, withLog [OpReadFile fsPath; OpLstat fsPath]
                           (<[relPath := None]> (sourceCache st)) (fsCache st))
          else (Throw e, withLog [OpReadFile fsPath; OpLstat fsPath]
                           (sourceCache st) (fsCache st)))) /\
  (forall st1 w,
     readFile host workPath fsPath st = (Ok None, st1) ->
     let st2 := snd (runWalk host workPath w st1) in
     readFile host workPath fsPath st2 = (Ok None, st2)) /\
  (buffersOnly (sourceCache st) ->
     buffersOnly (sourceCache (snd (readFile host workPath fsPath st))) /\
     ((exists b, sourceCache st !! relPath = Some (Some (SrcBuffer b))) \/
      sourceCache st !! relPath = Some None \/
      sourceCache st !! relPath = None)).
Proof.
  intros relPath withLog. split; [|split; [|split; [|split]]].
  - intros b. apply readFile_cached.
  - apply readFile_absent.
  - intros Hunset. split; [|split].
    + intros source stats Hread Hstat. run_hook. fold relPath.
      rewrite Hunset, Hread. simpl. rewrite Hstat. simpl.
      unfold withLog. rewrite <- app_assoc. reflexivity.
    + intros e Hread. run_hook. fold relPath. rewrite Hunset, Hread. simpl.
      destruct (isNotFound e); reflexivity.
    + intros source e Hread Hstat. run_hook. fold relPath.
      rewrite Hunset, Hread. simpl. rewrite Hstat. simpl.
      unfold withLog. rewrite <- app_assoc.
      destruct (isNotFound e); reflexivity.
  - intros st1 w Hnull st2. apply readFile_absent. unfold st2.
    apply runWalk_keeps; [|now left].
    eapply readFile_not_found_recorded; eassumption.
  - intros Hwf. split; [now apply readFile_buffersOnly|].
    destruct (sourceCache st !! relPath) as [[s|]|] eqn:Hc; auto.
    left. destruct (Hwf _ _ Hc) as [b ->]. eauto.
Qed.

End HookProofs.

(** ** The tracer's closure *)

Section TracerProofs.

Variable host : Host.
Variable workPath : string.



Lemma elem_of_setAdd (x y : string) (l : list string) :
  y ∈ setAdd x l <-> y = x \/ y ∈ l.
Proof.
  unfold setAdd. destruct (decide (x ∈ l)) as [Hin | Hnot].
  - split; [auto | intros [-> | H]; assumption].
  - rewrite elem_of_app, list_elem_of_singleton. tauto.
Qed.

Lemma includeFile_ok (file : string) (entry : FileFsRef) (st st' : TraceState) :
  includeFile host workPath (file, entry) st = (Ok tt, st') ->
  exists d, fromStream host entry = Ok d /\
    st' = {| sourceCache := <[file := Some (SrcBuffer d)]> (sourceCache st);
             fsCache := <[file := FsRef entry]> (fsCache st);
             inputFiles := setAdd (resolve host workPath file) (inputFiles st);
             fsLog := fsLog st |}.
Proof.
  unfold includeFile, setFs, setSource, addInput. intros H. monad_inv H.
  exists a0. split; [assumption | reflexivity].
Qed.




Ltac run_hook :=
  unfold readFile, readThrough, bind, gets, tryCatch, lift, logOp, setFs,
    setSource, modify, ret, throw; simpl.



(** The assembly loop: the keys of [preparedFiles] are those of
    [fileList], and a path the filesystem cache knows gets its File. *)
Lemma prepareFile_ok (prepared prepared' : gmap string File) (path : string)
    (st st' : TraceState) :
  prepareFile host workPath prepared path st = (Ok prepared', st') ->
  fsCache st' = fsCache st /\
  exists entry, prepared' = <[path := entry]> prepared /\
    (forall e, fsCache st !! path = Some e -> entry = e).
Proof.
  unfold prepareFile, bind, gets, logOp, modify, lift, ret. simpl.
  destruct (fsCache st !! path) as [e|] eqn:Hc.
  - intros H. inversion H; subst. split; [reflexivity|].
    exists e. split; [reflexivity|]. intros e' He'. congruence.
  - destruct (lstatSync host _) as [stats|err]; [|discriminate].
    destruct (readFileSync host _) as [source|err]; [|discriminate].
    intros H. inversion H; subst. split; [reflexivity|].
    eexists. split; [reflexivity|]. intros e' He'. discriminate.
Qed.

Lemma foldM_prepareFile (fileList : list string) (prepared prepared' : gmap string File)
    (st st' : TraceState) :
  foldM (prepareFile host workPath) fileList prepared st = (Ok prepared', st') ->
  fsCache st' = fsCache st /\
  (forall k, is_Some (prepared' !! k) <-> k ∈ fileList \/ is_Some (prepared !! k)) /\
  (forall k e, k ∈ fileList -> fsCache st !! k = Some e -> prepared' !! k = Some e) /\
  (forall k, k ∉ fileList -> prepared' !! k = prepared !! k).
Proof.
  revert prepared st. induction fileList as [|path rest IH]; intros prepared st H;
    simpl in H.
  - monad_inv H. split; [reflexivity|]. split; [|split].
    + intros k. rewrite elem_of_nil. tauto.
    + intros k e Hk. inversion Hk.
    + reflexivity.
  - monad_inv H. apply prepareFile_ok in Hrun.
    destruct Hrun as (Hfs & entry & -> & Hentry).
    destruct (IH _ _ Hrun0) as (Hfs' & Hkeys & Hcached & Hother).
    split; [congruence|]. split; [|split].
    + intros k. rewrite Hkeys, elem_of_cons.
      destruct (decide (path = k)) as [-> | Hne].
      * rewrite lookup_insert_eq. split; [auto | intros _; right; eauto].
      * rewrite lookup_insert_ne by assumption. split.
        -- intros [H | H]; auto.
        -- intros [[-> | H] | H]; auto. congruence.
    + intros k e Hk Hc. apply elem_of_cons in Hk.
      destruct (decide (k ∈ rest)) as [Hin | Hnot].
      * apply Hcached; [assumption | congruence].
      * rewrite Hother by assumption.
        destruct Hk as [-> | Hk]; [|contradiction].
        rewrite lookup_insert_eq. f_equal. now apply Hentry.
    + intros k Hk. rewrite not_elem_of_cons in Hk. destruct Hk as [Hne Hk].
      rewrite Hother by assumption. now rewrite lookup_insert_ne.
Qed.


End TracerProofs.

Definition sampleEntry : string := "/work/build/node/index.js".



(** ** The dev server of an entrypoint *)

Lemma sameProcesses_refl (w : World) : sameProcesses w w.
Proof. repeat split. Qed.

Lemma sameProcesses_trans (w1 w2 w3 : World) :
  sameProcesses w1 w2 -> sameProcesses w2 w3 -> sameProcesses w1 w3.
Proof. intros (A & B & C) (A' & B' & C'). repeat split; congruence. Qed.

Lemma sameProcesses_logged (es : list Event) (w : World) :
  sameProcesses w (logged es w).
Proof. repeat split. Qed.


(** A statement that leaves the registry, the children and the live
    processes as they are. *)
Definition quiet {A} (m : M World A) : Prop :=
  forall w, sameProcesses w (snd (m w)).

Lemma quiet_ret {A} (a : A) : quiet (ret a).
Proof. intros w. apply sameProcesses_refl. Qed.

Lemma quiet_throw {A} (e : JsError) : quiet (@throw World A e).
Proof. intros w. apply sameProcesses_refl. Qed.

Lemma quiet_lift {A} (r : Result A) : quiet (lift r).
Proof. intros w. apply sameProcesses_refl. Qed.

Lemma quiet_emit (e : Event) : quiet (emit e).
Proof. intros w. apply sameProcesses_logged. Qed.

Lemma quiet_bind {A B} (m : M World A) (k : A -> M World B) :
  quiet m -> (forall a, quiet (k a)) -> quiet (bind m k).
Proof.
  intros Hm Hk w. unfold bind. specialize (Hm w).
  destruct (m w) as [[a|e] w1]; simpl in *; [|assumption].
  eapply sameProcesses_trans; [eassumption | apply Hk].
Qed.

Section SupervisorProofs.

Variable host : Host.

(** What [devServerPort] does, case by case. *)
Lemma devServerPort_run (entry dir : string) (w : World) :
  devServerPort host entry dir w =
  match nowDevScriptPorts w !! entry with
  | Some p => (Ok p, w)
  | None =>
      match getPort host with
      | Throw e => (Throw e, w)
      | Ok p =>
          let polled := checkForPort host p DEV_SERVER_PORT_BIND_TIMEOUT (clock w) in
          (match outcome polled with
           | Ok _ => Ok p
           | Throw _ => Throw (detectError p)
           end,
           devStarted entry dir p (finishedAt polled) w)
      end
  end.
Proof.
  unfold devServerPort, bind, gets. simpl.
  destruct (nowDevScriptPorts w !! entry) as [p|]; [reflexivity|].
  unfold lift. destruct (getPort host) as [p|e]; [|reflexivity].
  unfold awaitDevServer, emit, setPorts, setClock, spawn, addChild, modify, bind,
    gets, ret, throw, logged. simpl.
  unfold devStarted, devStartEvents, devChild. simpl.
  rewrite <- !app_assoc. simpl.
  destruct (outcome (checkForPort host p DEV_SERVER_PORT_BIND_TIMEOUT (clock w)));
    reflexivity.
Qed.





Lemma quiet_runBuildScript (o : BuildOptions) (pkg : PackageJson)
    (mountpoint dir dist : string) (opts : SpawnOptions) :
  quiet (runBuildScript host o pkg mountpoint dir dist opts).
Proof.
  unfold runBuildScript.
  apply quiet_bind; [apply quiet_emit|]. intros _.
  apply quiet_bind; [apply quiet_lift|]. intros found.
  destruct (negb found); [apply quiet_throw|].
  repeat (apply quiet_bind; [first [apply quiet_emit | apply quiet_lift]|]; intros ?).
  apply quiet_ret.
Qed.


End SupervisorProofs.

(** ** At most one live dev server per entrypoint *)













(** ** The orchestrator *)

Section OrchestratorProofs.

Variable host : Host.

Lemma logged_logged (es1 es2 : list Event) (w : World) :
  logged es2 (logged es1 w) = logged (es1 ++ es2) w.
Proof. unfold logged. simpl. now rewrite app_assoc. Qed.

(** The paths [build] computes from its options. *)
Definition mountpointOf (o : BuildOptions) : string := dirname host (entrypoint o).
Definition entrypointDirOf (o : BuildOptions) : string :=
  join host [workPath o; mountpointOf o].
Definition distPathOf (o : BuildOptions) : string :=
  join host [join host [workPath o; dirname host (entrypoint o); "build"]; "web"].
Definition renderPathOf (o : BuildOptions) : string :=
  join host [join host [workPath o; dirname host (entrypoint o); "build"];
             "node"; "index.js"].

(** The branch [build] takes once the manifest is read. *)
Definition branchOf (o : BuildOptions) (pkg : PackageJson) (nodeVersion : NodeVersion)
    : M World (list Route * gmap string OutputEntry) :=
  if isDev (meta o) && hasStart pkg then
    let* devPort := devServerPort host (entrypoint o) (entrypointDirOf o) in
    ret (devRoutes (mountpointOf o) devPort, ∅)
  else runBuildScript host o pkg (mountpointOf o) (entrypointDirOf o) (distPathOf o)
         (getSpawnOptions host (meta o) nodeVersion).

(** A successful build, step by step. *)
Lemma build_ok (o : BuildOptions) (w w' : World) (r : BuildResult) :
  build host o w = (Ok r, w') ->
  exists pkg nodeVersion branch w1 traced lambda,
    let rt := if isDev (meta o) then "nodejs" else runtime nodeVersion in
    let fs := lambdaFiles host (fst traced) in
    readPackageJson host (join host [workPath o; entrypoint o]) = Ok pkg /\
    getNodeVersion host (entrypointDirOf o) (config o) = Ok nodeVersion /\
    branchOf o pkg nodeVersion
      (logged [EvDownload (workPath o); EvNpmInstall (entrypointDirOf o)] w)
      = (Ok branch, w1) /\
    compile host (workPath o) (renderPathOf o) (config o) = Ok traced /\
    createLambda host fs (LAUNCHER_FILENAME +:+ ".launcher") rt = Ok lambda /\
    r = {| routes := fst branch;
           watch := snd traced ++ [join host [stripDotSlash (mountpointOf o); "**/*"]];
           output := <["render.js" := OutLambda lambda]> (snd branch);
           distPath := distPathOf o |} /\
    w' = logged [EvCompile (workPath o) (renderPathOf o);
                 EvCreateLambda fs (LAUNCHER_FILENAME +:+ ".launcher") rt] w1.
Proof.
  unfold build. intros H.
  apply bind_ok in H. destruct H as ([] & s1 & H1 & H).
  apply modify_ok in H1. subst s1.
  apply bind_ok in H. destruct H as ([] & s2 & H2 & H).
  apply lift_ok in H2. destruct H2 as [Hdl ->].
  apply bind_ok in H. destruct H as (pkg & s3 & H3 & H).
  apply lift_ok in H3. destruct H3 as [Hpkg ->].
  apply bind_ok in H. destruct H as (nodeVersion & s4 & H4 & H).
  apply lift_ok in H4. destruct H4 as [Hnv ->].
  apply bind_ok in H. destruct H as ([] & s5 & H5 & H).
  apply modify_ok in H5. subst s5. rewrite logged_logged in H. simpl app in H.
  apply bind_ok in H. destruct H as ([] & s6 & H6 & H).
  apply lift_ok in H6. destruct H6 as [Hnpm ->].
  apply bind_ok in H. destruct H as (branch & w1 & Hbranch & H).
  apply bind_ok in H. destruct H as ([] & s7 & H7 & H).
  apply modify_ok in H7. subst s7.
  apply bind_ok in H. destruct H as (traced & s8 & H8 & H).
  apply lift_ok in H8. destruct H8 as [Hcompile ->].
  apply bind_ok in H. destruct H as ([] & s9 & H9 & H).
  apply modify_ok in H9. subst s9. rewrite logged_logged in H. simpl app in H.
  apply bind_ok in H. destruct H as (lambda & s10 & H10 & H).
  apply lift_ok in H10. destruct H10 as [Hlambda ->].
  apply ret_ok in H. destruct H as [-> ->].
  exists pkg, nodeVersion, branch, w1, traced, lambda. cbv zeta.
  repeat split; assumption.
Qed.

Lemma runBuildScript_ok (o : BuildOptions) (pkg : PackageJson)
    (mountpoint dir dist : string) (opts : SpawnOptions) (w w1 : World)
    (branch : list Route * gmap string OutputEntry) :
  runBuildScript host o pkg mountpoint dir dist opts w = (Ok branch, w1) ->
  fst branch = staticRoutes /\
  runPackageJsonScript host dir (getCommand (Some pkg) "build" (config o)) opts = Ok true /\
  validateDistDir host dist (isDev (meta o)) (config o) = Ok tt /\
  sameProcesses w w1.
Proof.
  intros H. pose proof (quiet_runBuildScript host o pkg mountpoint dir dist opts w) as Hq.
  rewrite H in Hq. simpl in Hq.
  unfold runBuildScript in H.
  apply bind_ok in H. destruct H as ([] & s1 & _ & H).
  apply bind_ok in H. destruct H as (found & s2 & H2 & H).
  apply lift_ok in H2. destruct H2 as [Hfound ->].
  destruct found; simpl in H; [|discriminate].
  apply bind_ok in H. destruct H as ([] & s3 & _ & H).
  apply bind_ok in H. destruct H as ([] & s4 & H4 & H).
  apply lift_ok in H4. destruct H4 as [Hvalid ->].
  apply bind_ok in H. destruct H as ([] & s5 & _ & H).
  apply bind_ok in H. destruct H as (out & s6 & _ & H).
  apply ret_ok in H. destruct H as [-> ->].
  split; [reflexivity|]. split; [assumption|]. split; assumption.
Qed.

(** C9: a successful build outside dev mode returns exactly the five
    static rules, in their order. *)
Theorem build_static_routes (o : BuildOptions) (w w' : World) (r : BuildResult) :
  build host o w = (Ok r, w') ->
  isDev (meta o) = false ->
  routes r =
    [ {| src := Some "/static/(.*)"; dest := None;
         headers := Some [("cache-control", "s-maxage=31536000, immutable")];
         continue := Some true; handle := None |};
      {| src := Some "/service-worker.js"; dest := None;
         headers := Some [("cache-control", "s-maxage=0")];
         continue := Some true; handle := None |};
      {| src := Some "/sockjs-node/(.*)"; dest := Some "/sockjs-node/$1";
         headers := None; continue := None; handle := None |};
      {| src := None; dest := None; headers := None; continue := None;
         handle := Some "filesystem" |};
      {| src := Some "/(.*)"; dest := Some "/render.js";
         headers := None; continue := None; handle := None |} ].
Proof.
  intros H Hdev. apply build_ok in H.
  destruct H as (pkg & nv & branch & w1 & traced & lambda & _ & _ & Hbranch & _ & _ & -> & _).
  unfold branchOf in Hbranch. rewrite Hdev in Hbranch. simpl in Hbranch.
  apply runBuildScript_ok in Hbranch. destruct Hbranch as (Hroutes & _).
  simpl. rewrite Hroutes. reflexivity.
Qed.

Lemma launcherFiles_lookup (k : string) :
  launcherFiles host !! k =
  if decide (k = "___now_helpers.js") then
    Some (FsRef {| fsPath := join host [__dirname host; "helpers.js"]; refMode := None |})
  else if decide (k = "___now_bridge.js") then
    Some (FsRef {| fsPath := join host [__dirname host; "bridge.js"]; refMode := None |})
  else if decide (k = "___now_launcher.js") then
    Some (Blob {| data := SrcString (makeNowLauncher host
                    {| entrypointPath := "./build/node/index.js";
                       bridgePath := "./___now_bridge";
                       helpersPath := "./___now_helpers";
                       sourcemapSupportPath := "./__sourcemap_support";
                       shouldAddHelpers := true |});
                  blobMode := None |})
  else None.
Proof.
  unfold launcherFiles.
  change (HELPERS_FILENAME +:+ ".js") with "___now_helpers.js".
  change (BRIDGE_FILENAME +:+ ".js") with "___now_bridge.js".
  change (LAUNCHER_FILENAME +:+ ".js") with "___now_launcher.js".
  rewrite !lookup_insert, lookup_empty.
  repeat case_decide; subst; try congruence; reflexivity.
Qed.

(** C10: every build that returns, in dev mode or not, has traced the
    render entrypoint with [compile] and packaged the lambda with
    [createLambda] from the traced files merged with the launcher, the
    bridge and the helpers, the three companions winning over a traced
    file of the same name; the two calls come last and in this order, and
    the output maps [render.js] to the lambda. *)
Theorem build_packages_lambda (o : BuildOptions) (w w' : World) (r : BuildResult) :
  build host o w = (Ok r, w') ->
  exists preparedFiles watchList lambda rt before,
    let fs := lambdaFiles host preparedFiles in
    compile host (workPath o) (renderPathOf o) (config o)
      = Ok (preparedFiles, watchList) /\
    createLambda host fs "___now_launcher.launcher" rt = Ok lambda /\
    events w' = before ++ [EvCompile (workPath o) (renderPathOf o);
                           EvCreateLambda fs "___now_launcher.launcher" rt] /\
    output r !! "render.js" = Some (OutLambda lambda) /\
    (forall k f, launcherFiles host !! k = Some f -> fs !! k = Some f) /\
    (forall k, launcherFiles host !! k = None -> fs !! k = preparedFiles !! k) /\
    (forall k, is_Some (launcherFiles host !! k) <->
       k = "___now_launcher.js" \/ k = "___now_bridge.js" \/ k = "___now_helpers.js").
Proof.
  intros H. apply build_ok in H.
  destruct H as (pkg & nv & branch & w1 & [preparedFiles watchList] & lambda
                 & _ & _ & _ & Hcompile & Hlambda & -> & ->).
  exists preparedFiles, watchList, lambda,
    (if isDev (meta o) then "nodejs" else runtime nv), (events w1).
  cbv zeta. simpl fst in *.
  split; [assumption|]. split; [assumption|]. split; [reflexivity|].
  split; [simpl; apply lookup_insert_eq|]. split; [|split].
  - intros k f Hk. unfold lambdaFiles. apply lookup_union_Some_l. assumption.
  - intros k Hk. unfold lambdaFiles. apply lookup_union_r. assumption.
  - intros k. rewrite launcherFiles_lookup.
    repeat case_decide; subst.
    + split; [intros _; auto | eauto].
    + split; [intros _; auto | eauto].
    + split; [intros _; auto | eauto].
    + split; [intros [x Hx]; discriminate | intros [? | [? | ?]]; contradiction].
Qed.



(** C8 (as the code has it): outside dev-server mode and outside
    zero-config mode, the build script is [now-build] if the manifest gives
    it a non-empty command, else [build] if the manifest gives that one a
    non-empty command, else [now-build]; it is [build] for the manifest
    [{"build": "webpack"}].  When [runPackageJsonScript] answers that the
    script was not found, the build fails with the error that quotes
    exactly that resolved name and the entrypoint. *)
Theorem build_missing_script (o : BuildOptions) (w : World) (pkg : PackageJson)
    (nodeVersion : NodeVersion) :
  download host (files o) (workPath o) (meta o) = Ok tt ->
  readPackageJson host (join host [workPath o; entrypoint o]) = Ok pkg ->
  getNodeVersion host (entrypointDirOf o) (config o) = Ok nodeVersion ->
  runNpmInstall host (entrypointDirOf o) ["--prefer-offline"]
    (getSpawnOptions host (meta o) nodeVersion) (meta o) = Ok tt ->
  isDev (meta o) && hasStart pkg = false ->
  zeroConfig (config o) = false ->
  let buildScript := getCommand (Some pkg) "build" (config o) in
  buildScript
    = (if declaresCommand (Some pkg) "now-build" then "now-build"
       else if declaresCommand (Some pkg) "build" then "build"
       else "now-build") /\
  (scripts pkg = Some {[ "build" := "webpack" ]} -> buildScript = "build") /\
  (runPackageJsonScript host (entrypointDirOf o) buildScript
     (getSpawnOptions host (meta o) nodeVersion) = Ok false ->
   fst (build host o w)
     = Throw (newError ("Missing required " +:+ quoted buildScript
                        +:+ " script in " +:+ quoted (entrypoint o)))).
Proof.
  intros Hdl Hpkg Hnv Hnpm Hbranch Hzero buildScript.
  assert (Hscript : buildScript
            = (if declaresCommand (Some pkg) "now-build" then "now-build"
               else if declaresCommand (Some pkg) "build" then "build"
               else "now-build")).
  { unfold buildScript, getCommand, declaresCommand. rewrite Hzero. reflexivity. }
  split; [exact Hscript|]. split.
  - intros Hs. rewrite Hscript. unfold declaresCommand, scriptsOf. rewrite Hs.
    reflexivity.
  - intros Hfound. unfold build, bind, emit, modify, lift.
    rewrite Hdl, Hpkg.
    fold (mountpointOf o). fold (entrypointDirOf o).
    rewrite Hnv, Hnpm, Hbranch.
    unfold runBuildScript, bind, emit, modify, lift.
    fold buildScript. rewrite Hfound. reflexivity.
Qed.

End OrchestratorProofs.

(** ** Worked examples on the sample host *)

Definition buildHost : Host :=
  sampleHost sampleTree (manifest [("build", "webpack")]) (fun _ => true) (fun _ => 0%N).

Definition devHost : Host :=
  sampleHost sampleTree (manifest [("start", "serve")]) (fun i => Nat.leb 2 i)
    (fun _ => 0%N).

Definition bareHost : Host :=
  sampleHost sampleTree (manifest [("test", "jest")]) (fun _ => true) (fun _ => 0%N).



(** A manifest with neither [now-build] nor [build], outside zero-config
    mode: the script is not found and the error names [now-build]. *)
Lemma build_missing_script_witness :
  let o := sampleOptions false (plainConfig false) in
  fst (build bareHost o initialWorld)
    = Throw (newError ("Missing required " +:+ quoted "now-build"
                       +:+ " script in " +:+ quoted "package.json")).
Proof.
  intros o.
  destruct (build_missing_script bareHost o initialWorld (manifest [("test", "jest")])
              (mkNodeVersion "nodejs12.x"))
    as (_ & _ & Hfail); [reflexivity..|].
  apply Hfail. reflexivity.
Defined.

(** C8 (as the spec words it) fails: with neither script in the manifest
    and strict mode off, [runPackageJsonScript] finds nothing and the
    error names [now-build], not [build]. *)
Lemma build_missing_script_counterexample :
  let o := sampleOptions false (plainConfig false) in
  let pkg := manifest [("test", "jest")] in
  declares (Some pkg) "now-build" = false /\
  declares (Some pkg) "build" = false /\
  zeroConfig (config o) = false /\
  fst (build bareHost o initialWorld) = Throw (missingScriptError "now-build" "package.json") /\
  message (missingScriptError "now-build" "package.json")
    = "Missing required " +:+ quoted "now-build" +:+ " script in " +:+ quoted "package.json" /\
  missingScriptError "now-build" "package.json" <> missingScriptError "build" "package.json".
Proof.
  intros o pkg. repeat split; try reflexivity. vm_compute. discriminate.
Qed.

(** A build outside dev mode on the sample tree returns the five rules. *)
Lemma build_static_routes_witness :
  exists r w',
    build buildHost (sampleOptions false (plainConfig false)) initialWorld = (Ok r, w') /\
    length (routes r) = 5%nat /\
    routes r !! 3%nat = Some {| src := None; dest := None; headers := None;
                                continue := None; handle := Some "filesystem" |}.
Proof.
  assert (Hb : exists r w',
             build buildHost (sampleOptions false (plainConfig false)) initialWorld
             = (Ok r, w')) by (vm_compute; eexists _, _; reflexivity).
  destruct Hb as (r & w' & Hb). exists r, w'. split; [exact Hb|].
  rewrite (build_static_routes buildHost _ _ _ _ Hb eq_refl). split; reflexivity.
Defined.

(** The same build, and a dev build, both end with the lambda under
    [render.js]. *)
Lemma build_packages_lambda_witness :
  exists r w' lambda,
    build devHost (sampleOptions true (plainConfig false)) initialWorld = (Ok r, w') /\
    output r !! "render.js" = Some (OutLambda lambda) /\
    handler lambda = "___now_launcher.launcher" /\ lambdaRuntime lambda = "nodejs".
Proof.
  assert (Hb : exists r w',
             build devHost (sampleOptions true (plainConfig false)) initialWorld
             = (Ok r, w')) by (vm_compute; eexists _, _; reflexivity).
  destruct Hb as (r & w' & Hb).
  destruct (build_packages_lambda devHost _ _ _ _ Hb)
    as (preparedFiles & watchList & lambda & rt & before
        & _ & Hlambda & _ & Hout & _).
  exists r, w', lambda. split; [exact Hb|]. split; [exact Hout|].
  assert (Hl : match fst (build devHost (sampleOptions true (plainConfig false))
                            initialWorld) with
               | Ok r' => output r' !! "render.js"
               | Throw _ => None
               end = Some (OutLambda (mkLambda [] "___now_launcher.launcher" "nodejs")))
    by (vm_compute; reflexivity).
  rewrite Hb in Hl. cbv beta iota delta [fst] in Hl.
  assert (Hlam : lambda = mkLambda [] "___now_launcher.launcher" "nodejs") by congruence.
  rewrite Hlam. split; reflexivity.
Defined.

(** A path that is not on disk: the first lookup reads and records the
    absence, the second one, after the walker has read the entrypoint,
    answers from the cache and leaves the log of filesystem calls alone. *)
Lemma readFile_three_states_witness :
  let st := freshTrace sampleEntry in
  let st1 := snd (readFile buildHost "/work" "/work/missing.js" st) in
  let st2 := snd (runWalk buildHost "/work"
                    (WalkRead sampleEntry (fun _ => WalkDone [] [])) st1) in
  fsLog st1 = [OpReadFile "/work/missing.js"] /\
  readFile buildHost "/work" "/work/missing.js" st2 = (Ok None, st2) /\
  fsLog st2 = [OpReadFile "/work/missing.js"; OpReadFile sampleEntry; OpLstat sampleEntry].
Proof.
  intros st st1 st2. split; [reflexivity|]. split; [|reflexivity].
  destruct (readFile_three_states buildHost "/work" "/work/missing.js" st)
    as (_ & _ & _ & Hagain & _).
  apply (Hagain st1 (WalkRead sampleEntry (fun _ => WalkDone [] []))).
  vm_compute. reflexivity.
Defined.

(** * Further properties of the builder *)

(** ** [prepareCache] *)



(** ** The signal listeners *)

(** What a run of the [SIGINT]/[SIGTERM] listener did: the signals it
    sent, in order, and whether it reached [process.exit(0)] or was cut
    short by a [process.kill] that threw.  A child stands for its [pid]. *)
Inductive Signalled :=
| Exited (exitCode : Z) (sent : list (nat * string))
| KillThrew (e : JsError) (sent : list (nat * string)).

Fixpoint killAll (kill : nat -> string -> Result unit) (signal : string)
    (children : list ChildProcess) (sent : list (nat * string)) : Signalled :=
  match children with
  | [] => Exited 0 sent
  | child :: rest =>
      match kill (childId child) signal with
      | Ok _ => killAll kill signal rest (sent ++ [(childId child, signal)])
      | Throw e => KillThrew e sent
      end
  end.

Definition onSignal (kill : nat -> string -> Result unit) (signal : string)
    (w : World) : Signalled :=
  killAll kill signal (nowDevChildProcesses w) [].

(** ** The output validator, both ways *)

(** X1: [validateDistDir] passes exactly when the path exists, is a
    directory and has at least one entry; neither the dev flag nor the
    configuration changes whether it passes. *)
Theorem validateDistDir_passes_iff (host : Host) (distDir : string) (dev : bool)
    (cfg : Config) :
  (validateDistDir host distDir dev cfg = Ok tt <->
   existsSync host distDir = true /\
   exists st e es, statSync host distDir = Ok st /\ isDirectory st = true /\
     readdirSync host distDir = Ok (e :: es)) /\
  (forall dev' cfg',
     validateDistDir host distDir dev cfg = Ok tt <->
     validateDistDir host distDir dev' cfg' = Ok tt).
Proof.
  assert (Hiff : forall d c,
    validateDistDir host distDir d c = Ok tt <->
    existsSync host distDir = true /\
    exists st e es, statSync host distDir = Ok st /\ isDirectory st = true /\
      readdirSync host distDir = Ok (e :: es)).
  { intros d c. unfold validateDistDir.
    destruct (existsSync host distDir); simpl.
    - destruct (statSync host distDir) as [st|err].
      + destruct (isDirectory st) eqn:Hdir; simpl.
        * destruct (readdirSync host distDir) as [[|e es]|err]; simpl.
          -- split; [discriminate|]. intros (_ & st' & e & es & _ & _ & H). discriminate.
          -- split; [|reflexivity]. intros _. split; [reflexivity|].
             exists st, e, es. auto.
          -- split; [discriminate|]. intros (_ & st' & e & es & _ & _ & H). discriminate.
        * split; [discriminate|]. intros (_ & st' & e & es & H & Hd & _).
          inversion H; subst. congruence.
      + split; [discriminate|]. intros (_ & st' & e & es & H & _). discriminate.
    - split; [discriminate|]. intros [H _]. discriminate. }
  split; [apply Hiff|]. intros dev' cfg'. rewrite !Hiff. reflexivity.
Qed.

(** ** The number of probes *)

(** X2: the poller makes at most [timeout / 100 + 2] probes when the
    timeout is not negative, and exactly one when it is negative. *)
Theorem checkForPort_probe_bound (host : Host) (port : N) (timeout start : Z) :
  (0 <= timeout ->
   (probes (checkForPort host port timeout start) <= Z.to_nat (timeout / 100) + 2)%nat) /\
  (timeout < 0 -> probes (checkForPort host port timeout start) = 1%nat).
Proof.
  assert (Hrun : forall n,
            stopsAt host port timeout start n ->
            (forall j, (j < n)%nat -> ~ stopsAt host port timeout start j) ->
            probes (checkForPort host port timeout start) = S n).
  { intros n Hn Hmin.
    rewrite (checkForPortLoop_skip host port timeout start n Hmin),
      checkForPortLoop_step. cbv zeta.
    destruct (isPortReachable host port n) eqn:Hr; [reflexivity|].
    destruct Hn as [Hn | Hn]; [congruence|]. unfold probeEnd in Hn.
    destruct (Z_lt_dec timeout _) as [_ | Hge]; [reflexivity | lia]. }
  split.
  - intros Hnonneg.
    destruct (least_stop_below host port timeout start
                (S (Z.to_nat (timeout / 100) + 1)))
      as [Hnone | (n & Hlt & Hn & Hmin)].
    + exfalso. apply (Hnone (Z.to_nat (timeout / 100) + 1)%nat); [lia|].
      apply stopsAt_eventually.
    + rewrite (Hrun n Hn Hmin). lia.
  - intros Hneg. apply (Hrun O).
    + right. unfold probeEnd. simpl. lia.
    + intros j Hj. lia.
Qed.

(** A deadline of 250 ms and a port that never opens: four probes, at
    0, 100, 200 and 300 ms. *)
Lemma checkForPort_probe_bound_witness :
  let host := sampleHost [] (manifest []) (fun _ => false) (fun _ => 0%N) in
  probes (checkForPort host 3000 250 0) = 4%nat /\
  (probes (checkForPort host 3000 250 0) <= Z.to_nat (250 / 100) + 2)%nat.
Proof.
  intros host. split; [reflexivity|].
  apply (checkForPort_probe_bound host 3000 250 0). lia.
Defined.

(** ** What [prepareCache] keeps *)




(** ** Termination signals *)

Lemma killAll_all (kill : nat -> string -> Result unit) (signal : string)
    (children : list ChildProcess) (sent : list (nat * string)) :
  (forall c, c ∈ children -> kill (childId c) signal = Ok tt) ->
  killAll kill signal children sent
  = Exited 0 (sent ++ ((fun c => (childId c, signal)) <$> children)).
Proof.
  revert sent. induction children as [|c rest IH]; intros sent Hall; simpl.
  - now rewrite app_nil_r.
  - rewrite (Hall c) by (apply elem_of_cons; now left).
    rewrite IH by (intros c' Hc'; apply Hall, elem_of_cons; now right).
    now rewrite <- app_assoc.
Qed.

Lemma killAll_throws (kill : nat -> string -> Result unit) (signal : string)
    (before after : list ChildProcess) (child : ChildProcess) (e : JsError)
    (sent : list (nat * string)) :
  (forall c, c ∈ before -> kill (childId c) signal = Ok tt) ->
  kill (childId child) signal = Throw e ->
  killAll kill signal (before ++ child :: after) sent
  = KillThrew e (sent ++ ((fun c => (childId c, signal)) <$> before)).
Proof.
  revert sent. induction before as [|c rest IH]; intros sent Hall Hthrow; simpl.
  - rewrite Hthrow. now rewrite app_nil_r.
  - rewrite (Hall c) by (apply elem_of_cons; now left).
    assert (Hrest : forall c', c' ∈ rest -> kill (childId c') signal = Ok tt)
      by (intros c' Hc'; apply Hall, elem_of_cons; now right).
    rewrite (IH _ Hrest Hthrow). now rewrite <- app_assoc.
Qed.

(** X4: the signal listener sends the signal it received to the children
    of the set, in the order they were added.  If no [process.kill]
    throws, every child of the set gets the signal and the process exits
    with code 0.  If one throws, the listener stops there: the children
    after it get no signal and [process.exit] is not reached. *)
Theorem onSignal_forwards (kill : nat -> string -> Result unit) (signal : string)
    (w : World) :
  ((forall c, c ∈ nowDevChildProcesses w -> kill (childId c) signal = Ok tt) ->
   onSignal kill signal w
   = Exited 0 ((fun c => (childId c, signal)) <$> nowDevChildProcesses w)) /\
  (forall before child after e,
     nowDevChildProcesses w = before ++ child :: after ->
     (forall c, c ∈ before -> kill (childId c) signal = Ok tt) ->
     kill (childId child) signal = Throw e ->
     onSignal kill signal w
     = KillThrew e ((fun c => (childId c, signal)) <$> before)).
Proof.
  unfold onSignal. split.
  - intros Hall. now rewrite killAll_all.
  - intros before child after e -> Hall Hthrow.
    now rewrite (killAll_throws kill signal before after child e [] Hall Hthrow).
Qed.

(** ** The child set over time *)






(** ** The registry and the live servers *)








(** ** The hook within one trace *)

Section TraceProofs.

Variable host : Host.
Variable workPath : string.

Ltac run_hook :=
  unfold readFile, readThrough, bind, gets, tryCatch, lift, logOp, setFs,
    setSource, modify, ret, throw; simpl.

(** A cache entry the hook answers from: [null], or a source that passes
    [if (cached)]. *)
Definition settled (v : option Source) : Prop :=
  match v with
  | None => True
  | Some s => truthySource s = true
  end.

Definition answerOf (v : option Source) : option string :=
  match v with
  | None => None
  | Some s => Some (sourceToString host s)
  end.

Lemma readFile_settled (fsPath : string) (st : TraceState) (v : option Source) :
  sourceCache st !! relative host workPath fsPath = Some v -> settled v ->
  readFile host workPath fsPath st = (Ok (answerOf v), st).
Proof.
  intros Hc Hv. run_hook. rewrite Hc. destruct v as [s|]; simpl in *.
  - rewrite Hv. reflexivity.
  - reflexivity.
Qed.

Lemma readFile_keeps_settled (fsPath : string) (st : TraceState) (k : string)
    (v : option Source) :
  sourceCache st !! k = Some v -> settled v ->
  sourceCache (snd (readFile host workPath fsPath st)) !! k = Some v.
Proof.
  intros Hk Hv. run_hook.
  destruct (decide (relative host workPath fsPath = k)) as [Heq | Hne].
  - rewrite Heq, Hk. destruct v as [s|]; simpl in *; [rewrite Hv|]; simpl; assumption.
  - destruct (sourceCache st !! relative host workPath fsPath) as [[s|]|] eqn:Hc;
      simpl; try assumption;
      [destruct (truthySource s); simpl; [assumption|] | ];
      (destruct (readFileSync host fsPath) as [source|e]; simpl;
       [ destruct (lstatSync host fsPath) as [stats|e]; simpl;
         [ rewrite lookup_insert_ne by assumption; assumption | ]
       | ];
       destruct (isNotFound e); simpl;
       [ rewrite lookup_insert_ne by assumption; assumption | assumption
       | rewrite lookup_insert_ne by assumption; assumption | assumption ]).
Qed.

Lemma runWalk_keeps_settled (w : Walk) (st : TraceState) (k : string)
    (v : option Source) :
  sourceCache st !! k = Some v -> settled v ->
  sourceCache (snd (runWalk host workPath w st)) !! k = Some v.
Proof.
  revert st. induction w as [fl ws | e | p kont IH]; intros st Hk Hv; simpl;
    try assumption.
  unfold bind.
  pose proof (readFile_keeps_settled p st k v Hk Hv) as Hkeep.
  destruct (readFile host workPath p st) as [[r|e] st1]; simpl in *.
  - apply IH; assumption.
  - assumption.
Qed.

(** Whatever the hook answers, it answers from then on. *)
Lemma readFile_answer_settled (fsPath : string) (st st1 : TraceState)
    (r : option string) :
  readFile host workPath fsPath st = (Ok r, st1) ->
  exists v, sourceCache st1 !! relative host workPath fsPath = Some v /\
            settled v /\ answerOf v = r.
Proof.
  assert (Hread : forall k,
    readThrough host k fsPath st = (Ok r, st1) ->
    exists v, sourceCache st1 !! k = Some v /\ settled v /\ answerOf v = r).
  { intros k. run_hook.
    destruct (readFileSync host fsPath) as [source|e]; simpl;
      [ destruct (lstatSync host fsPath) as [stats|e]; simpl | ].
    - intros H; inversion H; subst; simpl. rewrite lookup_insert_eq.
      exists (Some (SrcBuffer source)). repeat split.
    - destruct (isNotFound e); simpl; [|discriminate].
      intros H; inversion H; subst; simpl. rewrite lookup_insert_eq.
      exists None. repeat split.
    - destruct (isNotFound e); simpl; [|discriminate].
      intros H; inversion H; subst; simpl. rewrite lookup_insert_eq.
      exists None. repeat split. }
  unfold readFile, bind, gets. simpl.
  destruct (sourceCache st !! relative host workPath fsPath) as [[s|]|] eqn:Hc.
  - destruct (truthySource s) eqn:Ht.
    + unfold ret. intros H; inversion H; subst. exists (Some s). repeat split; assumption.
    + apply Hread.
  - unfold ret. intros H; inversion H; subst. exists None. repeat split; assumption.
  - apply Hread.
Qed.

(** X7: within one trace the hook gives one answer per path.  Once it has
    answered for a path, with a content or with [null], then after
    anything the walker reads next it gives the same answer for that path
    and changes nothing: no cache entry, no filesystem call. *)
Theorem readFile_answers_once (fsPath : string) (st st1 : TraceState)
    (r : option string) (w : Walk) :
  readFile host workPath fsPath st = (Ok r, st1) ->
  let st2 := snd (runWalk host workPath w st1) in
  readFile host workPath fsPath st2 = (Ok r, st2).
Proof.
  intros H st2. destruct (readFile_answer_settled fsPath st st1 r H)
    as (v & Hv & Hs & <-).
  apply readFile_settled; [|assumption].
  unfold st2. now apply runWalk_keeps_settled.
Qed.

End TraceProofs.

(** The walker reads the entrypoint, then a missing module, then the
    entrypoint again: the second answer is the first one and the log of
    filesystem calls does not grow. *)
Lemma readFile_answers_once_witness :
  let st := freshTrace sampleEntry in
  let w := WalkRead "/work/missing.js" (fun _ => WalkDone [] []) in
  let st1 := snd (readFile buildHost "/work" sampleEntry st) in
  let st2 := snd (runWalk buildHost "/work" w st1) in
  readFile buildHost "/work" sampleEntry st2 = (Ok (Some "module.exports = 1"), st2) /\
  fsLog st2 = [OpReadFile sampleEntry; OpLstat sampleEntry; OpReadFile "/work/missing.js"].
Proof.
  intros st w st1 st2. split; [|reflexivity].
  apply (readFile_answers_once buildHost "/work" sampleEntry st st1).
  vm_compute. reflexivity.
Defined.

(** ** The two caches *)

Lemma forEach_invariant {S A} (I : S -> Prop) (l : list A) (f : A -> M S unit)
    (s s' : S) :
  (forall x s1 s2, x ∈ l -> f x s1 = (Ok tt, s2) -> I s1 -> I s2) ->
  forEach l f s = (Ok tt, s') -> I s -> I s'.
Proof.
  revert s. induction l as [|x l IH]; intros s Hstep Hrun Hs; simpl in Hrun.
  - apply ret_ok in Hrun. destruct Hrun as [_ ->]. assumption.
  - apply bind_ok in Hrun. destruct Hrun as ([] & s1 & Hx & Hrest).
    apply (IH s1).
    + intros y s2 s3 Hy. apply Hstep. apply elem_of_cons. now right.
    + assumption.
    + apply (Hstep x s s1); [apply elem_of_cons; now left | assumption | assumption].
Qed.

Section CacheProofs.

Variable host : Host.
Variable workPath : string.

(** A File of the filesystem cache holds the Buffer [b]: a Blob has it as
    its data, a reference is the one it was streamed from. *)
Definition holds (f : File) (b : Buffer) : Prop :=
  match f with
  | Blob blob => data blob = SrcBuffer b
  | FsRef r => fromStream host r = Ok b
  end.

(** The caches go together: the paths of the filesystem cache are the
    paths whose source is cached, and the File holds the cached Buffer. *)
Definition cachesAgree (st : TraceState) : Prop :=
  (forall k f, fsCache st !! k = Some f ->
     exists b, sourceCache st !! k = Some (Some (SrcBuffer b)) /\ holds f b) /\
  (forall k s, sourceCache st !! k = Some (Some s) ->
     exists f b, s = SrcBuffer b /\ fsCache st !! k = Some f /\ holds f b).

Lemma cachesAgree_fresh (entrypointPath : string) :
  cachesAgree (freshTrace entrypointPath).
Proof.
  split; simpl; intros k x H; rewrite lookup_empty in H; discriminate.
Qed.

Lemma cachesAgree_set (st : TraceState) (k : string) (f : File) (b : Buffer)
    (inputs : list string) (log : list FsOp) :
  cachesAgree st -> holds f b ->
  cachesAgree {| sourceCache := <[k := Some (SrcBuffer b)]> (sourceCache st);
                 fsCache := <[k := f]> (fsCache st);
                 inputFiles := inputs; fsLog := log |}.
Proof.
  intros [H1 H2] Hf. split; simpl; intros k' x Hx.
  - destruct (decide (k = k')) as [<- | Hne].
    + rewrite lookup_insert_eq in Hx. inversion Hx; subst x.
      exists b. rewrite lookup_insert_eq. auto.
    + rewrite lookup_insert_ne in Hx by assumption.
      rewrite lookup_insert_ne by assumption. now apply H1.
  - destruct (decide (k = k')) as [<- | Hne].
    + rewrite lookup_insert_eq in Hx. inversion Hx; subst x.
      exists f, b. rewrite lookup_insert_eq. auto.
    + rewrite lookup_insert_ne in Hx by assumption.
      rewrite lookup_insert_ne by assumption. now apply H2.
Qed.

Lemma cachesAgree_null (st : TraceState) (k : string) (log : list FsOp) :
  cachesAgree st -> fsCache st !! k = None ->
  cachesAgree {| sourceCache := <[k := None]> (sourceCache st);
                 fsCache := fsCache st;
                 inputFiles := inputFiles st; fsLog := log |}.
Proof.
  intros [H1 H2] Hk. split; simpl; intros k' x Hx.
  - destruct (decide (k = k')) as [<- | Hne]; [congruence|].
    rewrite lookup_insert_ne by assumption. now apply H1.
  - destruct (decide (k = k')) as [<- | Hne].
    + rewrite lookup_insert_eq in Hx. discriminate.
    + rewrite lookup_insert_ne in Hx by assumption. now apply H2.
Qed.

Lemma cachesAgree_log (st : TraceState) (log : list FsOp) :
  cachesAgree st ->
  cachesAgree {| sourceCache := sourceCache st; fsCache := fsCache st;
                 inputFiles := inputFiles st; fsLog := log |}.
Proof. intros H. exact H. Qed.

Lemma cachesAgree_includeFile (kv : string * FileFsRef) (st st' : TraceState) :
  includeFile host workPath kv st = (Ok tt, st') -> cachesAgree st -> cachesAgree st'.
Proof.
  destruct kv as [file entry]. intros H Hagree.
  apply includeFile_ok in H. destruct H as (d & Hd & ->).
  now apply cachesAgree_set.
Qed.

Lemma cachesAgree_includeAll (cfg : Config) (st st' : TraceState) :
  includeAll host workPath cfg st = (Ok tt, st') -> cachesAgree st -> cachesAgree st'.
Proof.
  unfold includeAll. apply forEach_invariant.
  intros pattern s1 s2 _ Hrun. unfold includePattern in Hrun.
  apply bind_ok in Hrun. destruct Hrun as (files & s1' & Hglob & Hrun).
  apply lift_ok in Hglob. destruct Hglob as [_ ->].
  revert Hrun. apply forEach_invariant.
  intros kv s3 s4 _. apply cachesAgree_includeFile.
Qed.

Lemma cachesAgree_readFile (fsPath : string) (st : TraceState) :
  cachesAgree st -> cachesAgree (snd (readFile host workPath fsPath st)).
Proof.
  intros Hagree.
  assert (Hthrough : fsCache st !! relative host workPath fsPath = None ->
            cachesAgree (snd (readThrough host (relative host workPath fsPath) fsPath st))).
  { intros Hfree.
    unfold readThrough, bind, tryCatch, lift, logOp, setFs, setSource, modify,
      ret, throw; simpl.
    destruct (readFileSync host fsPath) as [source|e]; simpl;
      [ destruct (lstatSync host fsPath) as [stats|e]; simpl | ].
    - apply cachesAgree_set; [assumption | reflexivity].
    - destruct (isNotFound e); simpl.
      + now apply (cachesAgree_null st).
      + now apply cachesAgree_log.
    - destruct (isNotFound e); simpl.
      + now apply (cachesAgree_null st).
      + now apply cachesAgree_log. }
  unfold readFile, bind, gets. simpl.
  destruct (sourceCache st !! relative host workPath fsPath) as [[s|]|] eqn:Hc.
  - destruct (truthySource s) eqn:Ht; [assumption|].
    apply Hthrough. destruct Hagree as [_ H2].
    destruct (H2 _ _ Hc) as (f & b & -> & _). discriminate.
  - assumption.
  - apply Hthrough. destruct Hagree as [H1 _].
    destruct (fsCache st !! relative host workPath fsPath) as [f|] eqn:Hf;
      [|reflexivity].
    destruct (H1 _ _ Hf) as (b & Hb & _). congruence.
Qed.

Lemma cachesAgree_runWalk (w : Walk) (st : TraceState) :
  cachesAgree st -> cachesAgree (snd (runWalk host workPath w st)).
Proof.
  revert st. induction w as [fl ws | e | p kont IH]; intros st Hagree; simpl;
    try assumption.
  unfold bind. pose proof (cachesAgree_readFile p st Hagree) as Hnext.
  destruct (readFile host workPath p st) as [[r|e] st1]; simpl in *.
  - now apply IH.
  - assumption.
Qed.

(** What the assembly loop stores for a path: the File of the filesystem
    cache, or a Blob read from disk when the cache has none. *)
Definition assembled (st : TraceState) (path : string) (f : File) : Prop :=
  fsCache st !! path = Some f \/
  (fsCache st !! path = None /\
   exists source stats,
     lstatSync host (resolve host workPath path) = Ok stats /\
     readFileSync host (resolve host workPath path) = Ok source /\
     f = Blob {| data := SrcBuffer source; blobMode := Some (mode stats) |}).

Lemma prepareFile_assembled (prepared prepared' : gmap string File) (path : string)
    (st st' : TraceState) :
  prepareFile host workPath prepared path st = (Ok prepared', st') ->
  fsCache st' = fsCache st /\
  exists f, prepared' = <[path := f]> prepared /\ assembled st path f /\
    fsLog st' = fsLog st ++
      match fsCache st !! path with
      | Some _ => []
      | None => [OpLstat (resolve host workPath path);
                 OpReadFile (resolve host workPath path)]
      end.
Proof.
  unfold prepareFile, bind, gets, logOp, modify, lift, ret, assembled. simpl.
  destruct (fsCache st !! path) as [e|] eqn:Hc.
  - intros H. inversion H; subst. split; [reflexivity|].
    exists e. rewrite app_nil_r. auto.
  - destruct (lstatSync host _) as [stats|err]; [|discriminate].
    destruct (readFileSync host _) as [source|err]; [|discriminate].
    intros H. inversion H; subst. simpl. split; [reflexivity|].
    eexists. split; [reflexivity|]. split.
    + right. split; [reflexivity|]. eauto.
    + now rewrite <- app_assoc.
Qed.

Definition assemblyReads (st : TraceState) (path : string) : list FsOp :=
  match fsCache st !! path with
  | Some _ => []
  | None => [OpLstat (resolve host workPath path);
             OpReadFile (resolve host workPath path)]
  end.

Lemma foldM_assembled (fileList : list string) (prepared prepared' : gmap string File)
    (st st' : TraceState) :
  foldM (prepareFile host workPath) fileList prepared st = (Ok prepared', st') ->
  (forall k f, prepared !! k = Some f -> assembled st k f) ->
  (forall k f, prepared' !! k = Some f -> assembled st k f) /\
  fsLog st' = fsLog st ++ concat (assemblyReads st <$> fileList).
Proof.
  revert prepared st'.
  assert (Hgen : forall st0 prepared st',
    fsCache st0 = fsCache st ->
    foldM (prepareFile host workPath) fileList prepared st0 = (Ok prepared', st') ->
    (forall k f, prepared !! k = Some f -> assembled st k f) ->
    (forall k f, prepared' !! k = Some f -> assembled st k f) /\
    fsLog st' = fsLog st0 ++ concat (assemblyReads st <$> fileList)).
  { induction fileList as [|path rest IH]; intros st0 prepared st' Hfs H Hinv;
      simpl in H.
    - apply ret_ok in H. destruct H as [-> ->]. simpl. rewrite app_nil_r. auto.
    - apply bind_ok in H. destruct H as (p1 & s1 & Hone & Hrest).
      apply prepareFile_assembled in Hone.
      destruct Hone as (Hfs1 & f & -> & Hf & Hlog).
      destruct (IH s1 _ st' ltac:(congruence) Hrest) as [Hall Hlog'].
      + intros k g Hk. destruct (decide (path = k)) as [<- | Hne].
        * rewrite lookup_insert_eq in Hk. inversion Hk; subst g.
          unfold assembled in *. rewrite <- Hfs. exact Hf.
        * rewrite lookup_insert_ne in Hk by assumption. now apply Hinv.
      + split; [exact Hall|]. rewrite Hlog', Hlog. simpl.
        unfold assemblyReads at 2. rewrite <- Hfs. now rewrite <- app_assoc. }
  intros prepared st'. apply Hgen. reflexivity.
Qed.

(** X8: the closure [compile] returns, entry by entry.  After the include
    patterns and after the walk the two caches agree.  A path of
    [fileList] whose Buffer the source cache holds (it was included, or
    the walker read it through the hook) is packaged as the File of the
    filesystem cache, which holds that very Buffer: it is not read again.
    Any other path of [fileList] is read from disk at assembly, [lstatSync]
    then [readFileSync], and packaged as a Blob of what was read. *)
Theorem compile_closure_entries (cfg : Config) (entrypointPath : string)
    (preparedFiles : gmap string File) (watchList : list string) :
  compile host workPath entrypointPath cfg = Ok (preparedFiles, watchList) ->
  exists st1 st2 warnings,
    includeAll host workPath cfg (freshTrace entrypointPath) = (Ok tt, st1) /\
    runWalk host workPath
      (nodeFileTrace host (inputFiles st1) (traceOptions workPath cfg)) st1
      = (Ok (watchList, warnings), st2) /\
    cachesAgree st1 /\ cachesAgree st2 /\
    forall path, path ∈ watchList ->
      (forall b, sourceCache st2 !! path = Some (Some (SrcBuffer b)) ->
         exists f, preparedFiles !! path = Some f /\
                   fsCache st2 !! path = Some f /\ holds f b) /\
      ((forall b, sourceCache st2 !! path <> Some (Some (SrcBuffer b))) ->
         exists source stats,
           lstatSync host (resolve host workPath path) = Ok stats /\
           readFileSync host (resolve host workPath path) = Ok source /\
           preparedFiles !! path
           = Some (Blob {| data := SrcBuffer source; blobMode := Some (mode stats) |})).
Proof.
  unfold compile, compileM. intros H.
  destruct (bind _ _ _) as [res st3] eqn:Hrun in H. simpl in H. subst res.
  apply bind_ok in Hrun. destruct Hrun as ([] & st1 & Hinc & Hrun).
  apply bind_ok in Hrun. destruct Hrun as (inputs & st1' & Hget & Hrun).
  apply gets_ok in Hget. destruct Hget as [-> ->].
  apply bind_ok in Hrun. destruct Hrun as ([fileList warnings] & st2 & Hwalk & Hrun).
  apply bind_ok in Hrun. destruct Hrun as (prepared & st3' & Hfold & Hret).
  apply ret_ok in Hret. destruct Hret as [Hret ->]. simpl in Hret, Hfold.
  inversion Hret; subst prepared watchList; clear Hret.
  assert (Hagree1 : cachesAgree st1)
    by (eapply cachesAgree_includeAll; [eassumption | apply cachesAgree_fresh]).
  assert (Hagree2 : cachesAgree st2).
  { pose proof (cachesAgree_runWalk
                  (nodeFileTrace host (inputFiles st1) (traceOptions workPath cfg))
                  st1 Hagree1) as Hw. now rewrite Hwalk in Hw. }
  pose proof Hfold as Hkeys. apply foldM_prepareFile in Hkeys.
  destruct Hkeys as (_ & Hkeys & _ & _).
  apply foldM_assembled in Hfold;
    [|intros k f Hk; rewrite lookup_empty in Hk; discriminate].
  destruct Hfold as [Hall _].
  exists st1, st2, warnings. repeat (split; [assumption|]).
  intros path Hpath.
  assert (Hsome : is_Some (preparedFiles !! path)) by (apply Hkeys; now left).
  destruct Hsome as [f Hf]. pose proof (Hall _ _ Hf) as Hasm. split.
  - intros b Hb. destruct Hagree2 as [_ H2].
    destruct (H2 _ _ Hb) as (f' & b' & Hbb & Hf' & Hholds). inversion Hbb; subst b'.
    destruct Hasm as [Hc | [Hc _]]; [|congruence].
    exists f. split; [assumption|]. split; [assumption|]. congruence.
  - intros Hnone. destruct Hasm as [Hc | (_ & source & stats & Hl & Hr & ->)].
    + exfalso. destruct Hagree2 as [H1 _].
      destruct (H1 _ _ Hc) as (b & Hb & _). exact (Hnone b Hb).
    + exists source, stats. auto.
Qed.

(** X9: assembly touches the disk only for the paths of [fileList] that
    the filesystem cache does not know, in the order of [fileList], two
    calls per path ([lstatSync], then [readFileSync]); a path the cache
    knows costs no call. *)
Theorem assembly_reads_uncached (fileList : list string)
    (preparedFiles : gmap string File) (st st' : TraceState) :
  foldM (prepareFile host workPath) fileList ∅ st = (Ok preparedFiles, st') ->
  fsLog st' = fsLog st ++ concat (assemblyReads st <$> fileList) /\
  ((forall path, path ∈ fileList -> is_Some (fsCache st !! path)) ->
   fsLog st' = fsLog st).
Proof.
  intros H. apply foldM_assembled in H;
    [|intros k f Hk; rewrite lookup_empty in Hk; discriminate].
  destruct H as [_ Hlog]. split; [exact Hlog|].
  intros Hall. rewrite Hlog.
  assert (Hnil : concat (assemblyReads st <$> fileList) = []).
  { clear Hlog. induction fileList as [|p rest IH]; [reflexivity|]. simpl.
    unfold assemblyReads at 1.
    destruct (Hall p ltac:(apply elem_of_cons; now left)) as [f ->]. simpl.
    apply IH. intros q Hq. apply Hall, elem_of_cons. now right. }
  rewrite Hnil. apply app_nil_r.
Qed.

End CacheProofs.

(** The sample walker reads the entrypoint through the hook: the closure
    packages it as the Blob the hook cached, holding the bytes read. *)
Lemma compile_closure_entries_witness :
  let cfg := plainConfig false in
  exists preparedFiles watchList f,
    compile buildHost "/work" sampleEntry cfg = Ok (preparedFiles, watchList) /\
    preparedFiles !! "build/node/index.js" = Some f /\
    holds buildHost f (bufferOfAscii "module.exports = 1").
Proof.
  intros cfg.
  assert (Hc : exists preparedFiles watchList,
             compile buildHost "/work" sampleEntry cfg = Ok (preparedFiles, watchList))
    by (vm_compute; eexists _, _; reflexivity).
  destruct Hc as (preparedFiles & watchList & Hc).
  destruct (compile_closure_entries buildHost "/work" cfg sampleEntry
              preparedFiles watchList Hc)
    as (st1 & st2 & warnings & Hinc & Hwalk & _ & _ & Hentries).
  assert (Hw : match compile buildHost "/work" sampleEntry cfg with
               | Ok (_, l) => l
               | Throw _ => []
               end = ["build/node/index.js"]) by (vm_compute; reflexivity).
  rewrite Hc in Hw.
  assert (Hsrc : let s1 := snd (includeAll buildHost "/work" cfg (freshTrace sampleEntry)) in
                 sourceCache
                   (snd (runWalk buildHost "/work"
                           (nodeFileTrace buildHost (inputFiles s1)
                              (traceOptions "/work" cfg)) s1))
                   !! "build/node/index.js"
                 = Some (Some (SrcBuffer (bufferOfAscii "module.exports = 1"))))
    by (vm_compute; reflexivity).
  cbv zeta in Hsrc. rewrite Hinc in Hsrc.
  change (snd (Ok tt, st1)) with st1 in Hsrc.
  rewrite Hwalk in Hsrc.
  change (snd (Ok (watchList, warnings), st2)) with st2 in Hsrc.
  destruct (Hentries "build/node/index.js") as [Hcached _].
  { rewrite Hw. apply list_elem_of_singleton. reflexivity. }
  destruct (Hcached _ Hsrc) as (f & Hf & _ & Hholds).
  exists preparedFiles, watchList, f. auto.
Defined.

(** After the hook has read the entrypoint, assembling the entrypoint and
    the manifest reads the manifest only. *)
Lemma assembly_reads_uncached_witness :
  let st := snd (readFile buildHost "/work" sampleEntry (freshTrace sampleEntry)) in
  exists preparedFiles st',
    foldM (prepareFile buildHost "/work") ["build/node/index.js"; "package.json"] ∅ st
      = (Ok preparedFiles, st') /\
    fsLog st' = fsLog st ++ [OpLstat "/work/package.json"; OpReadFile "/work/package.json"].
Proof.
  intros st.
  assert (H : exists preparedFiles st',
            foldM (prepareFile buildHost "/work")
              ["build/node/index.js"; "package.json"] ∅ st = (Ok preparedFiles, st'))
    by (vm_compute; eexists _, _; reflexivity).
  destruct H as (preparedFiles & st' & H). exists preparedFiles, st'.
  split; [exact H|].
  destruct (assembly_reads_uncached buildHost "/work" _ _ _ _ H) as [Hlog _].
  rewrite Hlog. apply f_equal. vm_compute. reflexivity.
Defined.

(** ** The entries of the walk *)

Lemma setAdd_NoDup (x : string) (l : list string) : NoDup l -> NoDup (setAdd x l).
Proof.
  intros Hl. unfold setAdd. destruct (decide (x ∈ l)) as [Hin | Hnot]; [assumption|].
  apply NoDup_app. split; [assumption|]. split.
  - intros y Hy Hy'. apply list_elem_of_singleton in Hy'. congruence.
  - apply NoDup_singleton.
Qed.

Lemma setAdd_head (x e : string) (l : list string) :
  head l = Some e -> head (setAdd x l) = Some e.
Proof.
  unfold setAdd. destruct (decide (x ∈ l)); [auto|].
  destruct l; [discriminate | auto].
Qed.

Section EntryProofs.

Variable host : Host.
Variable workPath : string.

(** X10: the entries handed to the walker are the entrypoint, first, and
    then the resolved paths of the files the include patterns matched:
    nothing else, and no path twice, even when two patterns match the same
    file. *)
Theorem includeAll_entries (cfg : Config) (entrypointPath : string) (st1 : TraceState) :
  includeAll host workPath cfg (freshTrace entrypointPath) = (Ok tt, st1) ->
  NoDup (inputFiles st1) /\
  head (inputFiles st1) = Some entrypointPath /\
  forall p, p ∈ inputFiles st1 ->
    p = entrypointPath \/
    exists pattern files file entry,
      pattern ∈ patternList (includeFiles cfg) /\
      glob host pattern workPath None = Ok files /\
      (file, entry) ∈ files /\
      p = resolve host workPath file.
Proof.
  set (I := fun st : TraceState =>
    NoDup (inputFiles st) /\
    head (inputFiles st) = Some entrypointPath /\
    forall p, p ∈ inputFiles st ->
      p = entrypointPath \/
      exists pattern files file entry,
        pattern ∈ patternList (includeFiles cfg) /\
        glob host pattern workPath None = Ok files /\
        (file, entry) ∈ files /\
        p = resolve host workPath file).
  intros H. change (I st1). revert H. unfold includeAll.
  intros H. apply (forEach_invariant I _ _ _ _) with (2 := H).
  - intros pattern s1 s2 Hpattern Hrun. unfold includePattern in Hrun.
    apply bind_ok in Hrun. destruct Hrun as (files & s1' & Hglob & Hrun).
    apply lift_ok in Hglob. destruct Hglob as [Hglob ->].
    intros Hs1. apply (forEach_invariant I _ _ _ _) with (2 := Hrun); [|assumption].
    intros [file entry] s3 s4 Hfile Hone (Hnd & Hhd & Hall).
    apply includeFile_ok in Hone. destruct Hone as (d & _ & ->). unfold I. simpl.
    split; [now apply setAdd_NoDup|]. split; [now apply setAdd_head|].
    intros p Hp. apply elem_of_setAdd in Hp. destruct Hp as [-> | Hp]; [|auto].
    right. exists pattern, files, file, entry. auto.
  - unfold I. simpl. split; [apply NoDup_singleton|]. split; [reflexivity|].
    intros p Hp. apply list_elem_of_singleton in Hp. now left.
Qed.

End EntryProofs.

(** Two patterns that match the same asset: the walker gets the
    entrypoint and the asset, once each. *)
Lemma includeAll_entries_witness :
  let cfg := mkConfig false (Some (ManyPatterns ["assets/**"; "assets/logo.png"])) None in
  exists st1,
    includeAll buildHost "/work" cfg (freshTrace sampleEntry) = (Ok tt, st1) /\
    inputFiles st1 = [sampleEntry; "/work/assets/logo.png"] /\
    NoDup (inputFiles st1).
Proof.
  intros cfg.
  assert (H : exists st1, includeAll buildHost "/work" cfg (freshTrace sampleEntry)
                        = (Ok tt, st1)) by (vm_compute; eexists; reflexivity).
  destruct H as (st1 & H). exists st1. split; [exact H|]. split.
  - assert (Hin : inputFiles (snd (includeAll buildHost "/work" cfg (freshTrace sampleEntry)))
                  = [sampleEntry; "/work/assets/logo.png"]) by (vm_compute; reflexivity).
    rewrite H in Hin. exact Hin.
  - apply (includeAll_entries buildHost "/work" cfg sampleEntry st1 H).
Defined.

(** ** The steps of a build *)

Section BuildSteps.

Variable host : Host.

(** [runBuildScript], case by case. *)
Lemma runBuildScript_run (o : BuildOptions) (pkg : PackageJson)
    (mountpoint dir dist : string) (opts : SpawnOptions) (w : World) :
  let script := getCommand (Some pkg) "build" (config o) in
  runBuildScript host o pkg mountpoint dir dist opts w =
  match runPackageJsonScript host dir script opts with
  | Throw e => (Throw e, logged [EvRunScript dir script] w)
  | Ok false =>
      (Throw (missingScriptError script (entrypoint o)),
       logged [EvRunScript dir script] w)
  | Ok true =>
      match validateDistDir host dist (isDev (meta o)) (config o) with
      | Throw e => (Throw e, logged [EvRunScript dir script; EvValidateDistDir dist] w)
      | Ok _ =>
          match glob host "**" dist (Some mountpoint) with
          | Throw e =>
              (Throw e, logged [EvRunScript dir script; EvValidateDistDir dist;
                                EvGlob "**" dist] w)
          | Ok out =>
              (Ok (staticRoutes, filesOfGlob out),
               logged [EvRunScript dir script; EvValidateDistDir dist;
                       EvGlob "**" dist] w)
          end
      end
  end.
Proof.
  intros script. unfold runBuildScript, bind, emit, modify, lift, throw, ret.
  fold script.
  destruct (runPackageJsonScript host dir script opts) as [[|]|e]; simpl;
    try reflexivity.
  destruct (validateDistDir host dist (isDev (meta o)) (config o)) as [[]|e];
    rewrite !logged_logged; simpl; reflexivity.
Qed.

Lemma bind_lift_run {A B} (r : Result A) (k : A -> M World B) (w : World) :
  bind (lift r) k w = match r with Ok a => k a w | Throw e => (Throw e, w) end.
Proof. unfold bind, lift. destruct r; reflexivity. Qed.

Lemma bind_emit_run {B} (e : Event) (k : unit -> M World B) (w : World) :
  bind (emit e) k w = k tt (logged [e] w).
Proof. reflexivity. Qed.

(** [build], case by case. *)
Lemma build_run (o : BuildOptions) (w : World) :
  build host o w =
  match download host (files o) (workPath o) (meta o) with
  | Throw e => (Throw e, logged [EvDownload (workPath o)] w)
  | Ok _ =>
  match readPackageJson host (join host [workPath o; entrypoint o]) with
  | Throw e => (Throw e, logged [EvDownload (workPath o)] w)
  | Ok pkg =>
  match getNodeVersion host (entrypointDirOf host o) (config o) with
  | Throw e => (Throw e, logged [EvDownload (workPath o)] w)
  | Ok nodeVersion =>
  let started := logged [EvDownload (workPath o); EvNpmInstall (entrypointDirOf host o)] w in
  match runNpmInstall host (entrypointDirOf host o) ["--prefer-offline"]
          (getSpawnOptions host (meta o) nodeVersion) (meta o) with
  | Throw e => (Throw e, started)
  | Ok _ =>
  match branchOf host o pkg nodeVersion started with
  | (Throw e, w1) => (Throw e, w1)
  | (Ok branch, w1) =>
  let rt := if isDev (meta o) then "nodejs" else runtime nodeVersion in
  match compile host (workPath o) (renderPathOf host o) (config o) with
  | Throw e => (Throw e, logged [EvCompile (workPath o) (renderPathOf host o)] w1)
  | Ok traced =>
  let fs := lambdaFiles host (fst traced) in
  let called := logged [EvCompile (workPath o) (renderPathOf host o);
                        EvCreateLambda fs (LAUNCHER_FILENAME +:+ ".launcher") rt] w1 in
  match createLambda host fs (LAUNCHER_FILENAME +:+ ".launcher") rt with
  | Throw e => (Throw e, called)
  | Ok lambda =>
      (Ok {| routes := fst branch;
             watch := snd traced
                      ++ [join host [stripDotSlash (mountpointOf host o); "**/*"]];
             output := <["render.js" := OutLambda lambda]> (snd branch);
             distPath := distPathOf host o |}, called)
  end end end end end end end.
Proof.
  unfold build. rewrite bind_emit_run, bind_lift_run.
  destruct (download host _ _ _) as [[]|e]; [|reflexivity].
  rewrite bind_lift_run.
  destruct (readPackageJson host _) as [pkg|e]; [|reflexivity].
  fold (mountpointOf host o). fold (entrypointDirOf host o).
  rewrite bind_lift_run.
  destruct (getNodeVersion host _ _) as [nodeVersion|e]; [|reflexivity].
  rewrite bind_emit_run, logged_logged, bind_lift_run. simpl app.
  destruct (runNpmInstall host _ _ _ _) as [[]|e]; [|reflexivity].
  cbv zeta.
  change (if isDev (meta o) && hasStart pkg then _ else _)
    with (branchOf host o pkg nodeVersion).
  unfold bind at 1.
  destruct (branchOf host o pkg nodeVersion _) as [[branch|e] w1]; [|reflexivity].
  fold (renderPathOf host o).
  rewrite bind_emit_run, bind_lift_run.
  destruct (compile host _ _ _) as [traced|e]; [|reflexivity].
  rewrite bind_emit_run, logged_logged, bind_lift_run. simpl app.
  destruct (createLambda host _ _ _) as [lambda|e]; reflexivity.
Qed.

End BuildSteps.

Section BuildProperties.

Variable host : Host.

(** X11: a build outside dev mode that returns has called its
    collaborators in this order and no other: download, install, the build
    script, the validation of the output directory, the glob of the static
    files, the trace, the packaging.  It leaves the registry, the child
    set and the live processes untouched. *)
Theorem build_static_order (o : BuildOptions) (w w' : World) (r : BuildResult) :
  build host o w = (Ok r, w') ->
  isDev (meta o) = false ->
  exists pkg nodeVersion traced,
    readPackageJson host (join host [workPath o; entrypoint o]) = Ok pkg /\
    getNodeVersion host (entrypointDirOf host o) (config o) = Ok nodeVersion /\
    compile host (workPath o) (renderPathOf host o) (config o) = Ok traced /\
    events w' = events w ++
      [ EvDownload (workPath o);
        EvNpmInstall (entrypointDirOf host o);
        EvRunScript (entrypointDirOf host o) (getCommand (Some pkg) "build" (config o));
        EvValidateDistDir (distPathOf host o);
        EvGlob "**" (distPathOf host o);
        EvCompile (workPath o) (renderPathOf host o);
        EvCreateLambda (lambdaFiles host (fst traced)) "___now_launcher.launcher"
          (runtime nodeVersion) ] /\
    sameProcesses w w'.
Proof.
  intros H Hdev. rewrite build_run in H.
  destruct (download host _ _ _) as [[]|e]; [|discriminate].
  destruct (readPackageJson host _) as [pkg|e]; [|discriminate].
  destruct (getNodeVersion host _ _) as [nodeVersion|e]; [|discriminate].
  cbv zeta in H.
  destruct (runNpmInstall host _ _ _ _) as [[]|e]; [|discriminate].
  unfold branchOf in H. rewrite Hdev in H.
  change (false && hasStart pkg) with false in H. cbv iota in H.
  rewrite runBuildScript_run in H. cbv zeta in H.
  destruct (runPackageJsonScript host _ _ _) as [[|]|e]; try discriminate.
  destruct (validateDistDir host _ _ _) as [[]|e]; [|discriminate].
  destruct (glob host _ _ _) as [out|e]; [|discriminate].
  destruct (compile host _ _ _) as [traced|e]; [|discriminate].
  destruct (createLambda host _ _ _) as [lambda|e]; [|discriminate].
  inversion H; subst. exists pkg, nodeVersion, traced.
  repeat (split; [reflexivity|]).
  rewrite !logged_logged. simpl. split; [reflexivity|]. repeat split.
Qed.

(** X12: what such a build returns.  The output holds every static file
    the glob of the output directory found, under its key, except under
    [render.js], which is always the lambda: a static file of that name is
    not served.  The watch list is the walker's [fileList] followed by the
    pattern of the mountpoint. *)
Theorem build_static_output (o : BuildOptions) (w w' : World) (r : BuildResult) :
  build host o w = (Ok r, w') ->
  isDev (meta o) = false ->
  exists out preparedFiles fileList lambda,
    glob host "**" (distPathOf host o) (Some (mountpointOf host o)) = Ok out /\
    compile host (workPath o) (renderPathOf host o) (config o)
      = Ok (preparedFiles, fileList) /\
    output r !! "render.js" = Some (OutLambda lambda) /\
    (forall k, k <> "render.js" ->
       output r !! k
       = (fun f => OutFile (FsRef f)) <$> ((list_to_map out : gmap string FileFsRef) !! k)) /\
    watch r = fileList ++ [join host [stripDotSlash (mountpointOf host o); "**/*"]] /\
    distPath r = distPathOf host o.
Proof.
  intros H Hdev. rewrite build_run in H.
  destruct (download host _ _ _) as [[]|e]; [|discriminate].
  destruct (readPackageJson host _) as [pkg|e]; [|discriminate].
  destruct (getNodeVersion host _ _) as [nodeVersion|e]; [|discriminate].
  cbv zeta in H.
  destruct (runNpmInstall host _ _ _ _) as [[]|e]; [|discriminate].
  unfold branchOf in H. rewrite Hdev in H.
  change (false && hasStart pkg) with false in H. cbv iota in H.
  rewrite runBuildScript_run in H. cbv zeta in H.
  destruct (runPackageJsonScript host _ _ _) as [[|]|e]; try discriminate.
  destruct (validateDistDir host _ _ _) as [[]|e]; [|discriminate].
  destruct (glob host _ _ _) as [out|e] eqn:Hglob; [|discriminate].
  destruct (compile host _ _ _) as [[preparedFiles fileList]|e]; [|discriminate].
  destruct (createLambda host _ _ _) as [lambda|e]; [|discriminate].
  inversion H; subst. exists out, preparedFiles, fileList, lambda. simpl.
  split; [reflexivity|]. split; [reflexivity|].
  split; [apply lookup_insert_eq|]. split; [|split; reflexivity].
  intros k Hk. rewrite lookup_insert_ne by congruence.
  unfold filesOfGlob. apply lookup_fmap.
Qed.


(** X14: a dev server that is not detected in time stays.  When the
    poller times out, the build fails with the detection error naming the
    port, and the trace and the packaging are not run; but the port stays
    in the registry and the child stays in the set and alive.  A later
    build of that entrypoint, with whatever collaborators, takes the port
    from the registry at once: it does not probe the port again. *)
Theorem dev_timeout_keeps_server (o : BuildOptions) (w : World) (pkg : PackageJson)
    (nodeVersion : NodeVersion) (p : N) (e : JsError) :
  download host (files o) (workPath o) (meta o) = Ok tt ->
  readPackageJson host (join host [workPath o; entrypoint o]) = Ok pkg ->
  getNodeVersion host (entrypointDirOf host o) (config o) = Ok nodeVersion ->
  runNpmInstall host (entrypointDirOf host o) ["--prefer-offline"]
    (getSpawnOptions host (meta o) nodeVersion) (meta o) = Ok tt ->
  isDev (meta o) = true -> hasStart pkg = true ->
  nowDevScriptPorts w !! entrypoint o = None ->
  getPort host = Ok p ->
  outcome (checkForPort host p DEV_SERVER_PORT_BIND_TIMEOUT (clock w)) = Throw e ->
  let w1 := snd (build host o w) in
  let child := devChild w (entrypoint o) (entrypointDirOf host o) p in
  fst (build host o w) = Throw (detectError p) /\
  message (detectError p)
    = "Failed to detect a server running on port " +:+ pretty p +:+ "." +:+ newline
      +:+ "Details: https://err.sh/zeit/now/now-static-build-failed-to-detect-a-server" /\
  events w1 = events w ++
    [EvDownload (workPath o); EvNpmInstall (entrypointDirOf host o)]
    ++ devStartEvents w (entrypoint o) (entrypointDirOf host o) p /\
  nowDevScriptPorts w1 !! entrypoint o = Some p /\
  liveServer w1 child (entrypoint o) /\
  forall host' dir', devServerPort host' (entrypoint o) dir' w1 = (Ok p, w1).
Proof.
  intros Hdl Hpkg Hnv Hnpm Hdev Hstart Hfree Hport Hout w1 child.
  assert (Hrun : build host o w
            = (Throw (detectError p),
               devStarted (entrypoint o) (entrypointDirOf host o) p
                 (finishedAt (checkForPort host p DEV_SERVER_PORT_BIND_TIMEOUT (clock w)))
                 (logged [EvDownload (workPath o);
                          EvNpmInstall (entrypointDirOf host o)] w))).
  { rewrite build_run, Hdl, Hpkg, Hnv. cbv zeta. rewrite Hnpm.
    unfold branchOf. rewrite Hdev, Hstart.
    change (true && true) with true. cbv iota.
    unfold bind at 1. rewrite devServerPort_run. simpl nowDevScriptPorts.
    rewrite Hfree, Hport. cbv zeta. simpl clock. rewrite Hout. reflexivity. }
  subst w1. rewrite Hrun. simpl fst. simpl snd.
  split; [reflexivity|]. split; [reflexivity|].
  split; [simpl; now rewrite <- app_assoc|].
  split; [simpl; apply lookup_insert_eq|]. split.
  - repeat split; simpl.
    + apply elem_of_app. right. apply list_elem_of_singleton. reflexivity.
    + apply elem_of_union. left. apply elem_of_singleton. reflexivity.
    + unfold serves. simpl. apply list_elem_of_singleton. reflexivity.
  - intros host' dir'. rewrite devServerPort_run. simpl nowDevScriptPorts.
    rewrite lookup_insert_eq. reflexivity.
Qed.

End BuildProperties.

(** ** The dev route's prefix *)

(** X15: the one dev rule's source is the catch-all behind a prefix made
    from the mountpoint.  The prefix is empty, so that the rule is the
    bare catch-all, exactly for the mountpoints [.], [./] and the empty
    one; a mountpoint that does not start with a dot is prefixed with a
    slash; a leading [./] is dropped; and a mountpoint that starts with a
    dot and no slash loses that dot. *)
Theorem devRoutes_prefix (mountpoint : string) (devPort : N) :
  exists prefix,
    devRoutes mountpoint devPort =
      [ {| src := Some (prefix +:+ "/(.*)");
           dest := Some ("http://localhost:" +:+ pretty devPort +:+ "/$1");
           headers := None; continue := None; handle := None |} ] /\
    (prefix = EmptyString <->
       mountpoint = EmptyString \/ mountpoint = "." \/ mountpoint = "./") /\
    (forall c rest, mountpoint = String c rest -> c <> "."%char ->
       prefix = "/" +:+ mountpoint) /\
    (forall c rest, mountpoint = "./" +:+ String c rest ->
       prefix = "/" +:+ String c rest) /\
    (forall c rest, mountpoint = "." +:+ String c rest -> c <> "/"%char ->
       prefix = "/" +:+ String c rest).
Proof.
  exists (match stripDotSlash mountpoint with
          | EmptyString => EmptyString
          | String c rest => "/" +:+ String c rest
          end).
  split; [|split; [|split; [|split]]].
  - unfold devRoutes, getDevRoute. simpl.
    destruct (stripDotSlash mountpoint); reflexivity.
  - split.
    + destruct mountpoint as [|c rest]; [auto|].
      destruct (Ascii.ascii_dec c ".") as [-> | Hc].
      * destruct rest as [|c' rest']; [auto|].
        destruct (Ascii.ascii_dec c' "/") as [-> | Hc'].
        -- destruct rest'; simpl; [auto | discriminate].
        -- unfold stripDotSlash.
           destruct c' as [[] [] [] [] [] [] [] []]; try discriminate;
             exfalso; apply Hc'; reflexivity.
      * unfold stripDotSlash.
        destruct c as [[] [] [] [] [] [] [] []]; try discriminate;
          exfalso; apply Hc; reflexivity.
    + intros [-> | [-> | ->]]; reflexivity.
  - intros c rest -> Hc. unfold stripDotSlash.
    destruct c as [[] [] [] [] [] [] [] []]; try reflexivity;
      exfalso; apply Hc; reflexivity.
  - intros c rest ->. reflexivity.
  - intros c rest -> Hc. simpl.
    destruct c as [[] [] [] [] [] [] [] []]; try reflexivity;
      exfalso; apply Hc; reflexivity.
Qed.

(** ** The build steps on the sample host *)

Lemma build_static_order_witness :
  exists r w',
    build buildHost (sampleOptions false (plainConfig false)) initialWorld = (Ok r, w') /\
    length (events w') = 7%nat /\
    events w' !! 2%nat = Some (EvRunScript "/work" "build") /\
    sameProcesses initialWorld w'.
Proof.
  assert (Hb : exists r w',
             build buildHost (sampleOptions false (plainConfig false)) initialWorld
             = (Ok r, w')) by (vm_compute; eexists _, _; reflexivity).
  destruct Hb as (r & w' & Hb). exists r, w'. split; [exact Hb|].
  destruct (build_static_order buildHost _ _ _ _ Hb eq_refl)
    as (pkg & nodeVersion & traced & Hpkg & _ & _ & Hevents & Hsame).
  rewrite Hevents. split; [reflexivity|]. split; [|exact Hsame].
  inversion Hpkg; subst pkg. reflexivity.
Defined.

Lemma build_static_output_witness :
  exists r w',
    build buildHost (sampleOptions false (plainConfig false)) initialWorld = (Ok r, w') /\
    output r !! "index.html"
      = Some (OutFile (FsRef (mkFileFsRef "/work/build/web/index.html" (Some 420%N)))) /\
    watch r = ["build/node/index.js"; "**/*"].
Proof.
  assert (Hb : exists r w',
             build buildHost (sampleOptions false (plainConfig false)) initialWorld
             = (Ok r, w')) by (vm_compute; eexists _, _; reflexivity).
  destruct Hb as (r & w' & Hb). exists r, w'. split; [exact Hb|].
  destruct (build_static_output buildHost _ _ _ _ Hb eq_refl)
    as (out & preparedFiles & fileList & lambda & Hglob & Hcompile & _ & Hfiles & Hwatch & _).
  split.
  - rewrite Hfiles by discriminate.
    assert (Hout : out = [("index.html",
                           mkFileFsRef "/work/build/web/index.html" (Some 420%N))]).
    { vm_compute in Hglob. congruence. }
    rewrite Hout. reflexivity.
  - rewrite Hwatch.
    assert (Hl : match compile buildHost "/work" sampleEntry (plainConfig false) with
                 | Ok (_, l) => l
                 | Throw _ => []
                 end = ["build/node/index.js"]) by (vm_compute; reflexivity).
    change (renderPathOf buildHost (sampleOptions false (plainConfig false)))
      with sampleEntry in Hcompile.
    simpl workPath in Hcompile. simpl config in Hcompile.
    rewrite Hcompile in Hl. rewrite Hl. reflexivity.
Defined.

Definition silentHost : Host :=
  sampleHost sampleTree (manifest [("start", "serve")]) (fun _ => false) (fun _ => 0%N).

(** No probe answers: the outcome is the poller's timeout error. *)
Lemma checkForPort_never_reachable (host : Host) (port : N) (timeout start : Z) :
  (forall i, isPortReachable host port i = false) ->
  outcome (checkForPort host port timeout start)
  = Throw (timeoutError host port timeout).
Proof.
  intros Hnever.
  destruct (checkForPort_first_stop host port timeout start)
    as (n & _ & [[Hr _] | (_ & _ & ->)]).
  - rewrite Hnever in Hr. discriminate.
  - reflexivity.
Qed.

(** A dev server that never listens: the build fails after five minutes
    of polling, port 3000 stays registered, child 0 stays alive. *)
Lemma dev_timeout_keeps_server_witness :
  let o := sampleOptions true (plainConfig false) in
  let w1 := snd (build silentHost o initialWorld) in
  fst (build silentHost o initialWorld) = Throw (detectError 3000) /\
  nowDevScriptPorts w1 !! "package.json" = Some 3000%N /\
  devServerPort buildHost "package.json" "/elsewhere" w1 = (Ok 3000%N, w1).
Proof.
  intros o w1.
  destruct (dev_timeout_keeps_server silentHost o initialWorld
              (manifest [("start", "serve")]) (mkNodeVersion "nodejs12.x") 3000%N
              (timeoutError silentHost 3000 DEV_SERVER_PORT_BIND_TIMEOUT))
    as (Hfail & _ & _ & Hreg & _ & Hreuse);
    [reflexivity.. | apply checkForPort_never_reachable; reflexivity |].
  split; [exact Hfail|]. split; [exact Hreg|]. apply Hreuse.
Defined.
